(** * ExecuTask backend: the task pipeline, embedded and checked

    A shallow embedding of the Go backend of ExecuTask: the task model
    (internal/model/todo), the error values (internal/errs, internal/sqlerr),
    the data-access layer (internal/repository), the domain-rule layer
    (internal/service), the generic handler, and the due-date reminder job
    (internal/cron).

    Go values are kept as the code has them: the string-typed enumerations
    are strings, nullable pointers are options, [time.Time] is an instant
    counted in nanoseconds, a [uuid.UUID] is its 128-bit number, and
    [pgx.NamedArgs], the [userTodos] map and the bucket are finite maps.
    Everything outside the process (the relational store, the object store,
    the queue, the clock, the random source) lives in one explicit [World]
    that the functions thread, together with a script of the outcomes the
    outside will give, so that every failure the code handles can be
    exercised. *)

From Stdlib Require Import ZArith NArith List String Ascii Bool Lia.
From stdpp Require Import base option list gmap strings fin_maps.

Local Open Scope string_scope.
Local Open Scope Z_scope.

(* ===================================================================== *)
(** * Go-side basics *)
(* ===================================================================== *)

(** [time.Time]: an instant, in nanoseconds since the epoch. *)
Definition Time := Z.

(** [t.Before(u)]. *)
Definition Before (t u : Time) : bool := t <? u.

(** [uuid.UUID] is a [16]byte; it is kept as the number those bytes spell. *)
Definition UUID := N.

Definition hex_digit (d : N) : ascii :=
  match d with
  | 0%N => "0" | 1%N => "1" | 2%N => "2" | 3%N => "3"
  | 4%N => "4" | 5%N => "5" | 6%N => "6" | 7%N => "7"
  | 8%N => "8" | 9%N => "9" | 10%N => "a" | 11%N => "b"
  | 12%N => "c" | 13%N => "d" | 14%N => "e" | _ => "f"
  end%char.

(** The [len] lowest hex digits of [v], most significant first. *)
Fixpoint hex_fixed (len : nat) (v : N) (acc : string) : string :=
  match len with
  | O => acc
  | S len' => hex_fixed len' (N.shiftr v 4) (String (hex_digit (N.land v 15)) acc)
  end.

(** [u.String()]: xxxxxxxx-xxxx-xxxx-xxxx-xxxxxxxxxxxx. *)
Definition UUID_String (u : UUID) : string :=
  hex_fixed 8 (N.shiftr u 96) EmptyString
  ++ "-" ++ hex_fixed 4 (N.shiftr u 80) EmptyString
  ++ "-" ++ hex_fixed 4 (N.shiftr u 64) EmptyString
  ++ "-" ++ hex_fixed 4 (N.shiftr u 48) EmptyString
  ++ "-" ++ hex_fixed 12 u EmptyString.

(** [strings.Contains(s, substr)]. *)
Fixpoint strings_Contains (s substr : string) : bool :=
  String.prefix substr s ||
  match s with
  | EmptyString => false
  | String _ s' => strings_Contains s' substr
  end.

(* ===================================================================== *)
(** * internal/errs and the store's own errors *)
(* ===================================================================== *)

(** The status codes of net/http the code names. *)
Module Http.

Definition StatusOK : Z := 200.
Definition StatusCreated : Z := 201.
Definition StatusBadRequest : Z := 400.
Definition StatusUnauthorized : Z := 401.
Definition StatusForbidden : Z := 403.
Definition StatusNotFound : Z := 404.
Definition StatusInternalServerError : Z := 500.

End Http.

Module Errs.

(** [FieldError], [Action] and [HTTPError] of internal/errs. *)
Record FieldError := { Field : string; Error : string }.

Record Action := { Type_ : string; ActionMessage : string; Value : string }.

Record HTTPError := {
  Code : string;
  Message : string;
  Status : Z;
  Override : bool;
  Errors : list FieldError;
  Action_ : option Action
}.

(** The constructors: 400, 401, 403, 404 and 500. *)
Definition NewBadRequestError (message : string) (override : bool)
    (code : option string) (errors : list FieldError)
    (action : option Action) : HTTPError :=
  let formattedCode := match code with Some c => c | None => "BAD_REQUEST" end in
  {| Code := formattedCode; Message := message; Status := Http.StatusBadRequest;
     Override := override; Errors := errors; Action_ := action |}.

Definition NewUnauthorizedError (message : string) (override : bool) : HTTPError :=
  {| Code := "UNAUTHORIZED"; Message := message; Status := Http.StatusUnauthorized;
     Override := override; Errors := []; Action_ := None |}.

Definition NewForbiddenError (message : string) (override : bool) : HTTPError :=
  {| Code := "FORBIDDEN"; Message := message; Status := Http.StatusForbidden;
     Override := override; Errors := []; Action_ := None |}.

Definition NewNotFoundError (message : string) (override : bool)
    (code : option string) : HTTPError :=
  let formattedCode := match code with Some c => c | None => "NOT_FOUND" end in
  {| Code := formattedCode; Message := message; Status := Http.StatusNotFound;
     Override := override; Errors := []; Action_ := None |}.

Definition NewInternalServerError : HTTPError :=
  {| Code := "INTERNAL_SERVER_ERROR"; Message := "Internal Server Error";
     Status := Http.StatusInternalServerError; Override := false;
     Errors := []; Action_ := None |}.

End Errs.

(** A Go [error] value, as far as this code tells them apart:
    the service's own [*errs.HTTPError]; what the store driver hands back
    ([*pgconn.PgError] with its SQLSTATE code, [pgx.ErrNoRows]); any other
    failure (a lost connection, the object store, the queue); and an error
    wrapped by [fmt.Errorf("...: %w", err)] or [errors.Wrap(err, "...")]. *)
Inductive error :=
| EHTTP (e : Errs.HTTPError)
| EPgError (code : string) (message : string)
| EErrNoRows
| EOther (message : string)
| EWrap (context : string) (inner : error).

(** [err.Error()]. *)
Fixpoint Error_ (e : error) : string :=
  match e with
  | EHTTP h => Errs.Message h
  | EPgError code message => "ERROR: " ++ message ++ " (SQLSTATE " ++ code ++ ")"
  | EErrNoRows => "no rows in result set"
  | EOther message => message
  | EWrap context inner => context ++ ": " ++ Error_ inner
  end.

(** [errors.As(err, &pgErr)]: the first [*pgconn.PgError] on the chain. *)
Fixpoint errors_As_PgError (e : error) : option (string * string) :=
  match e with
  | EPgError code message => Some (code, message)
  | EWrap _ inner => errors_As_PgError inner
  | _ => None
  end.

(** [errors.Is(err, pgx.ErrNoRows)]. *)
Fixpoint errors_Is_ErrNoRows (e : error) : bool :=
  match e with
  | EErrNoRows => true
  | EWrap _ inner => errors_Is_ErrNoRows inner
  | _ => false
  end.

(** [errors.As(err, &httpErr)]: the first [*errs.HTTPError] on the chain. *)
Fixpoint errors_As_HTTPError (e : error) : option Errs.HTTPError :=
  match e with
  | EHTTP h => Some h
  | EWrap _ inner => errors_As_HTTPError inner
  | _ => None
  end.

(** Whether a store driver's error value sits anywhere on the chain. *)
Fixpoint carries_store_error (e : error) : bool :=
  match e with
  | EPgError _ _ | EErrNoRows => true
  | EWrap _ inner => carries_store_error inner
  | _ => false
  end.

Module Sqlerr.

(** internal/sqlerr: [HandleSQLError]. *)
Definition HandleSQLError (err : error) : error :=
  let mapped :=
    match errors_As_PgError err with
    | Some (code, _) =>
        if bool_decide (code = "23505") then
          Some (Errs.NewBadRequestError "Record already exists" false None [] None)
        else if bool_decide (code = "23503") then
          Some (Errs.NewBadRequestError "Referenced record not found" false None [] None)
        else if bool_decide (code = "23502") then
          Some (Errs.NewBadRequestError "Required field missing" false None [] None)
        else None
    | None => None
    end in
  match mapped with
  | Some h => EHTTP h
  | None =>
      if errors_Is_ErrNoRows err then
        EHTTP (Errs.NewNotFoundError "Record not found" false None)
      else EHTTP Errs.NewInternalServerError
  end.

End Sqlerr.

(* ===================================================================== *)
(** * internal/model/todo *)
(* ===================================================================== *)

Module TodoModel.

(** [type Status string] and its constants. *)
Definition Status := string.
Definition StatusDraft : Status := "draft".
Definition StatusActive : Status := "active".
Definition StatusCompleted : Status := "completed".
Definition StatusArchived : Status := "archived".

(** [type Priority string] and its constants. *)
Definition Priority := string.
Definition PriorityLow : Priority := "low".
Definition PriorityMedium : Priority := "medium".
Definition PriorityHigh : Priority := "high".

Record Metadata := {
  Tags : list string;
  Reminder : option string;
  Color : option string;
  Difficulty : option string
}.

(** [Todo], with the three fields of the embedded [model.Base] first. A
  field that shares its name with a type carries a trailing underscore. *)
Record Todo := {
  ID : UUID;
  CreatedAt : Time;
  UpdatedAt : Time;
  UserID : string;
  Title : string;
  Description : string;
  Priority_ : Priority;
  Status_ : Status;
  DueDate : option Time;
  CompletedAt : option Time;
  ParentTodoID : option UUID;
  CategoryID : option UUID;
  Metadata_ : option Metadata;
  SortOrder : Z
}.

(** [func (t *Todo) IsOverdue() bool]; [now] is what [time.Now()] gives. *)
Definition IsOverdue (now : Time) (t : Todo) : bool :=
  match DueDate t with
  | None => false
  | Some due => Before due now && negb (bool_decide (Status_ t = StatusCompleted))
  end.

(** [func (t *Todo) CanHaveChildren() bool]. *)
Definition CanHaveChildren (t : Todo) : bool :=
  match ParentTodoID t with
  | None => true
  | Some _ => false
  end.

(** [func (t *Todo) MarkComplete()]: the receiver after the call. *)
Definition MarkComplete (now : Time) (t : Todo) : Todo :=
  {| ID := ID t; CreatedAt := CreatedAt t; UpdatedAt := UpdatedAt t;
     UserID := UserID t; Title := Title t; Description := Description t;
     Priority_ := Priority_ t;
     Status_ := StatusCompleted;
     DueDate := DueDate t;
     CompletedAt := Some now;
     ParentTodoID := ParentTodoID t; CategoryID := CategoryID t;
     Metadata_ := Metadata_ t; SortOrder := SortOrder t |}.

(** The command of a create request. Its declaration is not among the
    sources; these are the fields the two [CreateTodo] listings read.
    [Priority] is a pointer (the repository tests it against nil);
    [Status] is a plain string, empty when the request gave none. *)
Record CreateTodoPayload := {
  pTitle : string;
  pDescription : string;
  pPriority : option Priority;
  pStatus : Status;
  pDueDate : option Time;
  pParentTodoID : option UUID;
  pCategoryID : option UUID;
  pMetadata : option Metadata;
  pSortOrder : Z
}.

End TodoModel.

Module CategoryModel.

(** internal/model/category. *)
Record Category := {
  ID : UUID;
  CreatedAt : Time;
  UpdatedAt : Time;
  UserID : string;
  Name : string;
  Color : string;
  Description : option string
}.

End CategoryModel.

Module CommentModel.

(** A comment row, with the columns the populated read selects. *)
Record Comment := {
  ID : UUID;
  TodoID : UUID;
  UserID : string;
  Content : string
}.

End CommentModel.

Module AttachmentModel.

(** [todo.TodoAttachment]. Its declaration is not among the sources; the
    fields are the values [UploadTodoAttachment] hands to the repository,
    after the generated identifier and timestamp. *)
Record TodoAttachment := {
  ID : UUID;
  CreatedAt : Time;
  TodoID : UUID;
  UploadedBy : string;
  DownloadKey : string;
  Name : string;
  FileSize : Z;
  MimeType : string
}.

End AttachmentModel.

Import TodoModel.

(* ===================================================================== *)
(** * The outside world *)
(* ===================================================================== *)

(** A value bound to a statement or held in a column. *)
Inductive SqlValue :=
| SqlNull
| SqlText (s : string)
| SqlInt (z : Z)
| SqlTimestamp (t : Time)
| SqlUuid (u : UUID)
| SqlJsonb (m : Metadata).

(** How pgx encodes Go values: a nil pointer is NULL. *)
Definition sql_time (t : option Time) : SqlValue :=
  match t with Some v => SqlTimestamp v | None => SqlNull end.
Definition sql_uuid (u : option UUID) : SqlValue :=
  match u with Some v => SqlUuid v | None => SqlNull end.
Definition sql_jsonb (m : option Metadata) : SqlValue :=
  match m with Some v => SqlJsonb v | None => SqlNull end.

(** [INSERT INTO into (columns) VALUES (@values) RETURNING *]. *)
Record InsertStmt := {
  Into : string;
  Columns : list string;
  Values : list string
}.

(** A statement as it reaches the pool, with what is bound to it. *)
Inductive Statement :=
| SInsert (stmt : InsertStmt) (args : gmap string SqlValue)
| SQuery (name : string) (params : list SqlValue).

(** What the store does with the next statement: it runs it, or the call
    itself fails, or the failure surfaces when the rows are read. *)
Inductive Fault :=
| NoFault
| QueryFault (e : error)
| RowsFault (e : error).

(** The relational store: its tables, the answers it will give to the
    statements to come, and the statements it has been sent. *)
Record DB := {
  todos : list Todo;
  categories : list CategoryModel.Category;
  comments : list CommentModel.Comment;
  attachments : list AttachmentModel.TodoAttachment;
  (** the default of [todos.sort_order]; the migration is not among the
      sources and nothing below depends on its value *)
  sort_order_default : Z;
  db_script : list Fault;
  db_log : list Statement
}.

(** A call to the object store. *)
Inductive S3Call :=
| S3Put (key : string)
| S3Delete (key : string).

(** An object of the bucket. *)
Record S3Object := { Body : list Byte.byte; ContentType : string }.

(** The object store: the bucket by key, the answers it will give to the
    calls to come ([None] for success), and the calls it has received. *)
Record S3 := {
  objects : gmap string S3Object;
  s3_script : list (option error);
  s3_log : list S3Call
}.

(** The task types of internal/lib/job. *)
Inductive TaskType := TaskWelcome | TaskReminderEmail | TaskWeeklyReportEmail.

(** [job.ReminderEmailTask]. *)
Record ReminderEmailTask := {
  rUserID : string;
  rTodoID : UUID;
  rTodoTitle : string;
  rDueDate : Time;
  rTaskType : string
}.

(** A task as asynq holds it: type, payload and the options of the call. *)
Record QueuedTask := {
  Typename : TaskType;
  Payload : ReminderEmailTask;
  QueueName : string;
  MaxRetry : Z;
  Timeout : Z;
  ProcessIn : Z
}.

(** The queue: the tasks it holds, and the answers it will give to the
    enqueues to come ([None] for success). *)
Record Queue := {
  tasks : list QueuedTask;
  queue_script : list (option error);
  (** every [Enqueue] call, delivered or not *)
  queue_log : list QueuedTask
}.

(** The value of a log field. *)
Inductive LogValue :=
| LStr (s : string)
| LInt (z : Z)
| LErr (e : error).

(** One zerolog event: level, fields in the order they were added, message. *)
Record LogEntry := {
  Level : string;
  Fields : list (string * LogValue);
  Msg : string
}.

(** Everything outside the process. *)
Record World := {
  db : DB;
  s3 : S3;
  queue : Queue;
  logs : list LogEntry;
  (** what [time.Now()] and the store's [now()] read *)
  clock : Time;
  (** the random source behind [uuid.New()] and the store's generated ids *)
  uuid_source : nat -> UUID;
  uuid_next : nat
}.

(** The world with one component replaced. *)
Definition with_db (d : DB) (w : World) : World :=
  {| db := d; s3 := s3 w; queue := queue w; logs := logs w; clock := clock w;
     uuid_source := uuid_source w; uuid_next := uuid_next w |}.

Definition with_s3 (s : S3) (w : World) : World :=
  {| db := db w; s3 := s; queue := queue w; logs := logs w; clock := clock w;
     uuid_source := uuid_source w; uuid_next := uuid_next w |}.

Definition with_queue (q : Queue) (w : World) : World :=
  {| db := db w; s3 := s3 w; queue := q; logs := logs w; clock := clock w;
     uuid_source := uuid_source w; uuid_next := uuid_next w |}.

Definition with_logs (l : list LogEntry) (w : World) : World :=
  {| db := db w; s3 := s3 w; queue := queue w; logs := l; clock := clock w;
     uuid_source := uuid_source w; uuid_next := uuid_next w |}.

Definition with_uuid_next (n : nat) (w : World) : World :=
  {| db := db w; s3 := s3 w; queue := queue w; logs := logs w; clock := clock w;
     uuid_source := uuid_source w; uuid_next := n |}.

(* ===================================================================== *)
(** * Computations over the world *)
(* ===================================================================== *)

(** A call either returns or panics (a nil dereference). Go's [error]
    results are ordinary return values, [error + A], which the caller
    inspects, as in the source. *)
Inductive Outcome (A : Type) :=
| Done (a : A)
| Panicked (msg : string).
Arguments Done {A} a.
Arguments Panicked {A} msg.

(** A computation: from the world before to its outcome and the world
    after. *)
Definition M (A : Type) : Type := World -> Outcome A * World.

Definition ret {A} (a : A) : M A := fun w => (Done a, w).

Definition bind {A B} (m : M A) (k : A -> M B) : M B :=
  fun w =>
    match m w with
    | (Done a, w') => k a w'
    | (Panicked msg, w') => (Panicked msg, w')
    end.

Definition panic {A} (msg : string) : M A := fun w => (Panicked msg, w).

Declare Scope go_scope.
Delimit Scope go_scope with go.
Notation "x <~ c ;; k" := (bind c (fun x => k))
  (at level 100, c at next level, right associativity) : go_scope.
Notation "c ;;; k" := (bind c (fun _ => k))
  (at level 100, right associativity) : go_scope.
Local Open Scope go_scope.

(** Go's [(nil, err)] and [(value, nil)]. *)
Definition fail {A} (err : error) : M (error + A) := ret (inl err).
Definition ok {A} (a : A) : M (error + A) := ret (inr a).

(** [time.Now()]. *)
Definition time_Now : M Time := fun w => (Done (clock w), w).

(** [uuid.New()]. *)
Definition uuid_New : M UUID :=
  fun w => (Done (uuid_source w (uuid_next w)), with_uuid_next (S (uuid_next w)) w).

(** One zerolog event. *)
Definition log_event (level : string) (fields : list (string * LogValue))
    (msg : string) : M unit :=
  fun w =>
    let event := {| Level := level; Fields := fields; Msg := msg |} in
    (Done tt, with_logs (logs w ++ [event]) w).

(** The pool takes a statement: it is recorded, and the store's next
    scripted answer is consumed (an exhausted script means no fault). *)
Definition db_begin (st : Statement) : M Fault :=
  fun w =>
    let d := db w in
    (Done (hd NoFault (db_script d)),
     with_db {| todos := todos d; categories := categories d;
                comments := comments d; attachments := attachments d;
                sort_order_default := sort_order_default d;
                db_script := tl (db_script d);
                db_log := db_log d ++ [st] |} w).

Definition db_set_todos (l : list Todo) : M unit :=
  fun w =>
    let d := db w in
    (Done tt,
     with_db {| todos := l; categories := categories d;
                comments := comments d; attachments := attachments d;
                sort_order_default := sort_order_default d;
                db_script := db_script d; db_log := db_log d |} w).

Definition db_set_attachments (l : list AttachmentModel.TodoAttachment) : M unit :=
  fun w =>
    let d := db w in
    (Done tt,
     with_db {| todos := todos d; categories := categories d;
                comments := comments d; attachments := l;
                sort_order_default := sort_order_default d;
                db_script := db_script d; db_log := db_log d |} w).

Definition db_get : M DB := fun w => (Done (db w), w).

(* ===================================================================== *)
(** * The relational store *)
(* ===================================================================== *)

(** Modelled from the spec: the migration that declares the [todos] table
    is not among the sources. The spec's scenario for a create that names
    no status reads: record with status defaulted to "active"; the insert
    of the repository binds no status, so that default is the column's. *)
Definition todos_status_default : Status := StatusActive.

(** The columns of [todos] the store fills when a statement leaves them out:
    the generated identifier, the two timestamps, the status and the sort
    order. Any other column left out is NULL. *)
Definition todos_column_defaults (id : UUID) (now : Time) (sort : Z)
    : gmap string SqlValue :=
  <["id" := SqlUuid id]>
  (<["created_at" := SqlTimestamp now]>
  (<["updated_at" := SqlTimestamp now]>
  (<["status" := SqlText todos_status_default]>
  (<["sort_order" := SqlInt sort]> ∅)))).

(** The named arguments go to the columns of the statement, position by
    position; a name missing from the arguments binds NULL. *)
Definition bind_columns (stmt : InsertStmt) (args defaults : gmap string SqlValue)
    : gmap string SqlValue :=
  foldr (fun cv row => <[cv.1 := default SqlNull (args !! cv.2)]> row)
        defaults (zip (Columns stmt) (Values stmt)).

(** The value of a column of a row, NULL when the row does not have it. *)
Definition col (row : gmap string SqlValue) (name : string) : SqlValue :=
  default SqlNull (row !! name).

(** How a column scans into a Go field: a plain field refuses NULL, a
    pointer field takes it as nil. *)
Definition scan_text (v : SqlValue) : option string :=
  match v with SqlText s => Some s | _ => None end.
Definition scan_int (v : SqlValue) : option Z :=
  match v with SqlInt z => Some z | _ => None end.
Definition scan_time (v : SqlValue) : option Time :=
  match v with SqlTimestamp t => Some t | _ => None end.
Definition scan_uuid (v : SqlValue) : option UUID :=
  match v with SqlUuid u => Some u | _ => None end.
Definition scan_time_ptr (v : SqlValue) : option (option Time) :=
  match v with SqlNull => Some None | SqlTimestamp t => Some (Some t) | _ => None end.
Definition scan_uuid_ptr (v : SqlValue) : option (option UUID) :=
  match v with SqlNull => Some None | SqlUuid u => Some (Some u) | _ => None end.
Definition scan_jsonb_ptr (v : SqlValue) : option (option Metadata) :=
  match v with SqlNull => Some None | SqlJsonb m => Some (Some m) | _ => None end.

(** [pgx.RowToStructByName[todo.Todo]]: each field from the column its [db]
    tag names; [None] when a column does not scan into its field. *)
Definition RowToStructByName_Todo (row : gmap string SqlValue) : option Todo :=
  id ← scan_uuid (col row "id");
  created ← scan_time (col row "created_at");
  updated ← scan_time (col row "updated_at");
  user ← scan_text (col row "user_id");
  title ← scan_text (col row "title");
  description ← scan_text (col row "description");
  priority ← scan_text (col row "priority");
  status ← scan_text (col row "status");
  due ← scan_time_ptr (col row "due_date");
  completed ← scan_time_ptr (col row "completed_at");
  parent ← scan_uuid_ptr (col row "parent_todo_id");
  category ← scan_uuid_ptr (col row "category_id");
  metadata ← scan_jsonb_ptr (col row "metadata");
  sort ← scan_int (col row "sort_order");
  Some {| ID := id; CreatedAt := created; UpdatedAt := updated;
          UserID := user; Title := title; Description := description;
          Priority_ := priority; Status_ := status; DueDate := due;
          CompletedAt := completed; ParentTodoID := parent;
          CategoryID := category; Metadata_ := metadata; SortOrder := sort |}.

(** [pgx.Rows]: the rows a query gave, or the error met on the way. *)
Record Rows := {
  rows_err : option error;
  rows_data : list (gmap string SqlValue)
}.

(** [Pool.Query] of an [INSERT ... RETURNING *] into [todos]. A statement
    the store refuses (of itself, or by the script: constraint violations
    and outages are the store's to decide) leaves the table as it was. *)
Definition Pool_Query_Insert (stmt : InsertStmt) (args : gmap string SqlValue)
    : M (error + Rows) :=
  f <~ db_begin (SInsert stmt args) ;;
  match f with
  | QueryFault e => fail e
  | RowsFault e => ok {| rows_err := Some e; rows_data := [] |}
  | NoFault =>
      if bool_decide (Into stmt = "todos") then
        id <~ uuid_New ;;
        now <~ time_Now ;;
        d <~ db_get ;;
        let row := bind_columns stmt args
                     (todos_column_defaults id now (sort_order_default d)) in
        match RowToStructByName_Todo row with
        | Some t =>
            db_set_todos (todos d ++ [t]) ;;;
            ok {| rows_err := None; rows_data := [row] |}
        | None =>
            ok {| rows_err := Some (EPgError "22000" "value does not fit its column");
                  rows_data := [] |}
        end
      else
        ok {| rows_err := Some (EPgError "42P01" "relation does not exist");
              rows_data := [] |}
  end.

(** [pgx.CollectOneRow(rows, fn)]. *)
Definition CollectOneRow {T} (rows : Rows) (fn : gmap string SqlValue -> option T)
    : error + T :=
  match rows_data rows with
  | [] =>
      match rows_err rows with
      | Some e => inl e
      | None => inl EErrNoRows
      end
  | r :: _ =>
      match fn r with
      | None => inl (EOther "cannot scan row into struct")
      | Some t =>
          match rows_err rows with
          | Some e => inl e
          | None => inr t
          end
      end
  end.

(* ===================================================================== *)
(** * internal/repository *)
(* ===================================================================== *)

Module Repository.

(** The statement of [CreateTodo]: eight columns, eight named arguments. *)
Definition CreateTodo_stmt : InsertStmt :=
  {| Into := "todos";
     Columns := ["user_id"; "title"; "description"; "priority"; "due_date";
                 "parent_todo_id"; "category_id"; "metadata"];
     Values := ["user_id"; "title"; "description"; "priority"; "due_date";
                "parent_todo_id"; "category_id"; "metadata"] |}.

(** The [pgx.NamedArgs] literal of [CreateTodo]. *)
Definition CreateTodo_args (userID : string) (payload : CreateTodoPayload)
    (priority : Priority) : gmap string SqlValue :=
  <["user_id" := SqlText userID]>
  (<["title" := SqlText (pTitle payload)]>
  (<["description" := SqlText (pDescription payload)]>
  (<["priority" := SqlText priority]>
  (<["due_date" := sql_time (pDueDate payload)]>
  (<["parent_todo_id" := sql_uuid (pParentTodoID payload)]>
  (<["category_id" := sql_uuid (pCategoryID payload)]>
  (<["metadata" := sql_jsonb (pMetadata payload)]> ∅))))))).

(** [func (r *TodoRepository) CreateTodo]. *)
Definition CreateTodo (userID : string) (payload : CreateTodoPayload)
    : M (error + Todo) :=
  let priority :=
    match pPriority payload with
    | Some p => p
    | None => PriorityMedium
    end in
  r <~ Pool_Query_Insert CreateTodo_stmt (CreateTodo_args userID payload priority) ;;
  match r with
  | inl err =>
      fail (EWrap ("failed to execute create todo query for user_id=" ++ userID
                   ++ " title=" ++ pTitle payload) err)
  | inr rows =>
      match CollectOneRow rows RowToStructByName_Todo with
      | inl err =>
          fail (EWrap ("failed to collect row from table:todos for user_id=" ++ userID
                       ++ " title=" ++ pTitle payload) err)
      | inr todoItem => ok todoItem
      end
  end.

(** Modelled from the spec: [CheckTodoExists] is not among the sources. The
    spec has the create path "look it up scoped to the owning principal;
    fail with NotFound if absent", and has the data-access component turn
    the store's own failures into domain errors. *)
Definition CheckTodoExists (userID : string) (todoID : UUID) : M (error + Todo) :=
  f <~ db_begin (SQuery "CheckTodoExists" [SqlUuid todoID; SqlText userID]) ;;
  match f with
  | QueryFault e | RowsFault e => fail (Sqlerr.HandleSQLError e)
  | NoFault =>
      d <~ db_get ;;
      match filter (fun t => ID t = todoID /\ UserID t = userID) (todos d) with
      | [] => fail (EHTTP (Errs.NewNotFoundError "Todo not found" false None))
      | t :: _ => ok t
      end
  end.

(** Modelled from the spec: [CategoryRepository.GetCategoryByID] is not
    among the sources. The spec: "look it up scoped to the owning
    principal; fail with NotFound/BadRequest if absent or not owned by the
    principal". *)
Definition GetCategoryByID (userID : string) (categoryID : UUID)
    : M (error + CategoryModel.Category) :=
  f <~ db_begin (SQuery "GetCategoryByID" [SqlUuid categoryID; SqlText userID]) ;;
  match f with
  | QueryFault e | RowsFault e => fail (Sqlerr.HandleSQLError e)
  | NoFault =>
      d <~ db_get ;;
      match filter (fun c => CategoryModel.ID c = categoryID
                             /\ CategoryModel.UserID c = userID) (categories d) with
      | [] => fail (EHTTP (Errs.NewNotFoundError "Category not found" false None))
      | c :: _ => ok c
      end
  end.

(** The one-argument [NewNotFoundError] of the guide's internal/errs/types.go
    listing, which [GetTodoByID] and [UploadTodoAttachment] call. *)
Definition NewNotFoundError (message : string) : Errs.HTTPError :=
  {| Errs.Code := "NOT_FOUND"; Errs.Message := message; Errs.Status := 404;
     Errs.Override := false; Errs.Errors := []; Errs.Action_ := None |}.

(** The JSON objects the query of [GetTodoByID] aggregates for the children
    and the comments of a task. *)
Record ChildRef := { chID : UUID; chTitle : string; chStatus : Status }.
Record CommentRef := { coID : UUID; coContent : string; coUserID : string }.

(** [todo.PopulatedTodo]: the task with what the joins bring along. *)
Record PopulatedTodo := {
  Todo_ : Todo;
  Category : option CategoryModel.Category;
  Children : list ChildRef;
  Comments : list CommentRef
}.

(** The query of [GetTodoByID]: the rows of [todos] with the identifier
    [$1] and the owner [$2], each with its category, its children and its
    comments joined in. *)
Definition select_populated (d : DB) (todoID : UUID) (userID : string)
    : list PopulatedTodo :=
  map (fun t =>
         {| Todo_ := t;
            Category :=
              head (filter (fun c => Some (CategoryModel.ID c) = CategoryID t)
                           (categories d));
            Children :=
              map (fun ch => {| chID := ID ch; chTitle := Title ch;
                                chStatus := Status_ ch |})
                  (filter (fun ch => ParentTodoID ch = Some (ID t)) (todos d));
            Comments :=
              map (fun co => {| coID := CommentModel.ID co;
                                coContent := CommentModel.Content co;
                                coUserID := CommentModel.UserID co |})
                  (filter (fun co => CommentModel.TodoID co = ID t) (comments d)) |})
      (filter (fun t => ID t = todoID /\ UserID t = userID) (todos d)).

(** [Pool.QueryRow(ctx, query, todoID, userID).Scan(...)]. The call of
    [QueryRow] comes first in the expression and sends the query. The
    arguments of [Scan] are evaluated next; among them are [&category.ID],
    [&category.Name], ..., taken through [category], the listing's
    [*category.Category] variable: where [category] is nil they panic,
    before [Scan] is entered and before any error is looked at. *)
Definition QueryRow_Scan_populated (todoID : UUID) (userID : string)
    (category : option CategoryModel.Category) : M (error + PopulatedTodo) :=
  f <~ db_begin (SQuery "GetTodoByID" [SqlUuid todoID; SqlText userID]) ;;
  match category with
  | None => panic "invalid memory address or nil pointer dereference"
  | Some _ =>
      match f with
      | QueryFault e | RowsFault e => fail e
      | NoFault =>
          d <~ db_get ;;
          match select_populated d todoID userID with
          | [] => fail EErrNoRows
          | pt :: _ => ok pt
          end
      end
  end.

(** [func (r *TodoRepository) GetTodoByID]. [var category *category.Category]
    is declared and not assigned before the scan: it is nil there. *)
Definition GetTodoByID (userID : string) (todoID : UUID) : M (error + PopulatedTodo) :=
  let category : option CategoryModel.Category := None in
  r <~ QueryRow_Scan_populated todoID userID category ;;
  match r with
  | inl err =>
      if errors_Is_ErrNoRows err then
        fail (EHTTP (NewNotFoundError "Todo not found"))
      else fail err
  | inr pt => ok pt
  end.

(** Modelled from the spec: the repository's [UploadTodoAttachment] is not
    among the sources. The spec's create is a "single-row insert returning
    the generated identifier and timestamps; all other fields are supplied
    by the caller ... and copied verbatim into the returned record". *)
Definition UploadTodoAttachment (todoID : UUID) (userID s3Key filename : string)
    (size : Z) (mimeType : string) : M (error + AttachmentModel.TodoAttachment) :=
  f <~ db_begin (SQuery "UploadTodoAttachment"
                   [SqlUuid todoID; SqlText userID; SqlText s3Key;
                    SqlText filename; SqlInt size; SqlText mimeType]) ;;
  match f with
  | QueryFault e | RowsFault e => fail (Sqlerr.HandleSQLError e)
  | NoFault =>
      id <~ uuid_New ;;
      now <~ time_Now ;;
      d <~ db_get ;;
      let a := {| AttachmentModel.ID := id; AttachmentModel.CreatedAt := now;
                  AttachmentModel.TodoID := todoID;
                  AttachmentModel.UploadedBy := userID;
                  AttachmentModel.DownloadKey := s3Key;
                  AttachmentModel.Name := filename;
                  AttachmentModel.FileSize := size;
                  AttachmentModel.MimeType := mimeType |} in
      db_set_attachments (attachments d ++ [a]) ;;;
      ok a
  end.

(** [time.Hour], in nanoseconds. *)
Definition Hour : Z := 3600 * 1000000000.

(** Modelled from the spec: the query of [GetTodosDueInHours] is not among
    the sources. A record matches the "time window" of the job when its due
    timestamp lies within the next [hours] hours. *)
Definition due_within (now : Time) (hours : Z) (t : Todo) : bool :=
  match DueDate t with
  | Some due => (now <? due) && (due <=? now + hours * Hour)
  | None => false
  end.

(** Modelled from the spec: [GetTodosDueInHours] is not among the sources.
    The spec's contract for a job: "given a time window and a batch-size
    cap, select at most that many matching task records". *)
Definition GetTodosDueInHours (hours limit : Z) : M (error + list Todo) :=
  f <~ db_begin (SQuery "GetTodosDueInHours" [SqlInt hours; SqlInt limit]) ;;
  match f with
  | QueryFault e | RowsFault e => fail (Sqlerr.HandleSQLError e)
  | NoFault =>
      now <~ time_Now ;;
      d <~ db_get ;;
      ok (take (Z.to_nat limit) (List.filter (due_within now hours) (todos d)))
  end.

(** Modelled from the spec: the command of an update is not among the
    sources. The spec has the update carry "status transitions ... and field
    edits": the identifier of the task and, for each field, the new value
    when the request carries one. *)
Record UpdateTodoPayload := {
  uID : UUID;
  uTitle : option string;
  uDescription : option string;
  uPriority : option Priority;
  uStatus : option Status;
  uDueDate : option Time;
  uSortOrder : option Z
}.

(** Modelled from the spec: the update path is not among the sources. The
    field edits of an update, and the last-modified timestamp, "assigned
    exclusively by the data-access layer at creation/update time". *)
Definition apply_fields (now : Time) (payload : UpdateTodoPayload) (t : Todo) : Todo :=
  {| ID := ID t; CreatedAt := CreatedAt t; UpdatedAt := now;
     UserID := UserID t;
     Title := default (Title t) (uTitle payload);
     Description := default (Description t) (uDescription payload);
     Priority_ := default (Priority_ t) (uPriority payload);
     Status_ := Status_ t;
     DueDate := match uDueDate payload with Some d => Some d | None => DueDate t end;
     CompletedAt := CompletedAt t;
     ParentTodoID := ParentTodoID t; CategoryID := CategoryID t;
     Metadata_ := Metadata_ t;
     SortOrder := default (SortOrder t) (uSortOrder payload) |}.

(** Modelled from the spec: the update path is not among the sources, only
    [MarkComplete] is. The spec: "status transition to "completed" sets
    completion timestamp; transition away from "completed" clears it". *)
Definition apply_status (now : Time) (status : option Status) (t : Todo) : Todo :=
  match status with
  | None => t
  | Some s =>
      if bool_decide (s = StatusCompleted) then MarkComplete now t
      else
        {| ID := ID t; CreatedAt := CreatedAt t; UpdatedAt := UpdatedAt t;
           UserID := UserID t; Title := Title t; Description := Description t;
           Priority_ := Priority_ t;
           Status_ := s;
           DueDate := DueDate t;
           CompletedAt :=
             if bool_decide (Status_ t = StatusCompleted) then None
             else CompletedAt t;
           ParentTodoID := ParentTodoID t; CategoryID := CategoryID t;
           Metadata_ := Metadata_ t; SortOrder := SortOrder t |}
  end.

(** Modelled from the spec: [UpdateTodo] is not among the sources. The
    update is scoped to the owning principal like every read ("returns
    NotFound if no row matches both identifier and owner"), and the
    last-modified timestamp is the data-access layer's to assign. *)
Definition UpdateTodo (userID : string) (payload : UpdateTodoPayload)
    : M (error + Todo) :=
  f <~ db_begin (SQuery "UpdateTodo" [SqlUuid (uID payload); SqlText userID]) ;;
  match f with
  | QueryFault e | RowsFault e => fail (Sqlerr.HandleSQLError e)
  | NoFault =>
      now <~ time_Now ;;
      d <~ db_get ;;
      let hit := fun t => bool_decide (ID t = uID payload /\ UserID t = userID) in
      let change := fun t => apply_status now (uStatus payload)
                               (apply_fields now payload t) in
      match List.filter hit (todos d) with
      | [] => fail (EHTTP (Errs.NewNotFoundError "Todo not found" false None))
      | t :: _ =>
          db_set_todos (map (fun r => if hit r then change r else r) (todos d)) ;;;
          ok (change t)
      end
  end.

End Repository.

(* ===================================================================== *)
(** * The object store and the queue *)
(* ===================================================================== *)

Definition s3_begin (call : S3Call) : M (option error) :=
  fun w =>
    let s := s3 w in
    (Done (hd None (s3_script s)),
     with_s3 {| objects := objects s; s3_script := tl (s3_script s);
                s3_log := s3_log s ++ [call] |} w).

Definition s3_set_objects (o : gmap string S3Object) : M unit :=
  fun w =>
    let s := s3 w in
    (Done tt, with_s3 {| objects := o; s3_script := s3_script s;
                         s3_log := s3_log s |} w).

Definition s3_get : M S3 := fun w => (Done (s3 w), w).

Module AWS.

(** Modelled from the spec: the [UploadFile(ctx, key, src, contentType)]
    that the service calls, with the key chosen by the caller and one
    [error] result, is not among the sources (the guide's S3 listing has an
    [UploadFile] that makes its own key). The spec has the object store
    consumed through put, presigned get and delete: the object is stored
    under the key, unless the object store fails the call. *)
Definition UploadFile (key : string) (src : list Byte.byte) (contentType : string)
    : M (option error) :=
  f <~ s3_begin (S3Put key) ;;
  match f with
  | Some e => ret (Some e)
  | None =>
      s <~ s3_get ;;
      s3_set_objects (<[key := {| Body := src; ContentType := contentType |}]> (objects s)) ;;;
      ret None
  end.

(** Modelled from the spec: the [DeleteFile(ctx, key)] that the service
    calls is not among the sources; the guide's S3 listing has
    [DeleteObject], which returns the error of the SDK's delete. The spec:
    "delete(key) -> success/failure". The key is removed, unless the object
    store fails the call. *)
Definition DeleteFile (key : string) : M (option error) :=
  f <~ s3_begin (S3Delete key) ;;
  match f with
  | Some e => ret (Some e)
  | None =>
      s <~ s3_get ;;
      s3_set_objects (delete key (objects s)) ;;;
      ret None
  end.

End AWS.

Module Job.

Definition Minute : Z := 60 * 1000000000.
Definition Second : Z := 1000000000.

(** [client.Enqueue(task, opts...)]: the task is queued, unless the queue
    fails the call; either way the call is on record. *)
Definition Enqueue (t : QueuedTask) : M (option error) :=
  fun w =>
    let q := queue w in
    match hd None (queue_script q) with
    | Some e =>
        (Done (Some e),
         with_queue {| tasks := tasks q; queue_script := tl (queue_script q);
                       queue_log := queue_log q ++ [t] |} w)
    | None =>
        (Done None,
         with_queue {| tasks := tasks q ++ [t]; queue_script := tl (queue_script q);
                       queue_log := queue_log q ++ [t] |} w)
    end.

(** What [EnqueueReminderEmail] hands to the queue for a reminder. The
    JSON encoding of the payload is kept as the value it encodes. *)
Definition reminder_item (task : ReminderEmailTask) : QueuedTask :=
  {| Typename := TaskReminderEmail; Payload := task;
     QueueName := "critical"; MaxRetry := 3;
     Timeout := 5 * Minute; ProcessIn := 10 * Second |}.

(** [func EnqueueReminderEmail(client, task) error]. *)
Definition EnqueueReminderEmail (task : ReminderEmailTask) : M (option error) :=
  Enqueue (reminder_item task).

End Job.

(* ===================================================================== *)
(** * internal/service *)
(* ===================================================================== *)

Module Service.

(** The closure that renders the category of the event log. *)
Definition category_id_field (todoItem : Todo) : string :=
  match CategoryID todoItem with
  | Some c => UUID_String c
  | None => EmptyString
  end.

(** [func (s *TodoService) CreateTodo]. Each early [return nil, err] of the
    source is the [inl] that skips the rest. *)
Definition CreateTodo (userID : string) (payload : CreateTodoPayload)
    : M (error + Todo) :=
  parent_checked <~
    match pParentTodoID payload with
    | Some parentID =>
        r <~ Repository.CheckTodoExists userID parentID ;;
        match r with
        | inl err =>
            log_event "error" [("error", LErr err)] "parent todo validation failed" ;;;
            fail err
        | inr parentTodo =>
            if negb (CanHaveChildren parentTodo) then
              let err := EHTTP (Errs.NewBadRequestError
                "Parent todo cannot have children (subtasks can't have subtasks)"
                false None [] None) in
              log_event "warn" [] "parent todo cannot have children" ;;;
              fail err
            else ok tt
        end
    | None => ok tt
    end ;;
  match parent_checked with
  | inl err => fail err
  | inr _ =>
      category_checked <~
        match pCategoryID payload with
        | Some categoryID =>
            r <~ Repository.GetCategoryByID userID categoryID ;;
            match r with
            | inl err =>
                log_event "error" [("error", LErr err)] "category validation failed" ;;;
                fail err
            | inr _ => ok tt
            end
        | None => ok tt
        end ;;
      match category_checked with
      | inl err => fail err
      | inr _ =>
          r <~ Repository.CreateTodo userID payload ;;
          match r with
          | inl err =>
              log_event "error" [("error", LErr err)] "failed to create todo" ;;;
              fail err
          | inr todoItem =>
              log_event "info"
                [("event", LStr "todo_created");
                 ("todo_id", LStr (UUID_String (ID todoItem)));
                 ("title", LStr (Title todoItem));
                 ("category_id", LStr (category_id_field todoItem));
                 ("priority", LStr (Priority_ todoItem))]
                "Todo created successfully" ;;;
              ok todoItem
          end
      end
  end.

(** [*multipart.FileHeader]; [Open] is [None] when the file cannot be
    opened. *)
Record FileHeader := {
  Filename : string;
  Size : Z;
  HeaderContentType : string;
  Open : option (list Byte.byte)
}.

(** [func (s *TodoService) UploadTodoAttachment]. *)
Definition UploadTodoAttachment (userID : string) (todoID : UUID) (file : FileHeader)
    : M (error + AttachmentModel.TodoAttachment) :=
  r <~ Repository.CheckTodoExists userID todoID ;;
  match r with
  | inl _ => fail (EHTTP (Repository.NewNotFoundError "Todo not found"))
  | inr _ =>
      match Open file with
      | None =>
          fail (EHTTP (Errs.NewBadRequestError "Failed to open file" false None [] None))
      | Some src =>
          fresh <~ uuid_New ;;
          let s3Key := "attachments/" ++ userID ++ "/" ++ UUID_String todoID
                       ++ "/" ++ UUID_String fresh in
          uploaded <~ AWS.UploadFile s3Key src (HeaderContentType file) ;;
          match uploaded with
          | Some err => fail (EWrap "failed to upload file to S3" err)
          | None =>
              r <~ Repository.UploadTodoAttachment todoID userID s3Key
                     (Filename file) (Size file) (HeaderContentType file) ;;
              match r with
              | inl err =>
                  AWS.DeleteFile s3Key ;;;
                  fail err
              | inr attachment => ok attachment
              end
          end
      end
  end.

End Service.

(* ===================================================================== *)
(** * internal/handler *)
(* ===================================================================== *)

Module Handler.

(** [func Handle[TPayload, TResponse]]. [bound] is what [c.Bind] made of the
    request ([None] when it does not decode) and [validate] is the
    validator behind [c.Validate]. A returned error goes to the error
    middleware; otherwise the response is [c.JSON(statusCode, response)]. *)
Definition Handle {TPayload TResponse : Type}
    (validate : TPayload -> bool)
    (fn : TPayload -> M (error + TResponse))
    (statusCode : Z)
    (bound : option TPayload) : M (error + (Z * TResponse)) :=
  match bound with
  | None => fail (EHTTP (Errs.NewBadRequestError "Invalid request" false None [] None))
  | Some payload =>
      if negb (validate payload) then
        fail (EHTTP (Errs.NewBadRequestError "Validation failed" false None [] None))
      else
        r <~ fn payload ;;
        match r with
        | inl err => fail err
        | inr response => ok (statusCode, response)
        end
  end.

(** [func (h *TodoHandler) CreateTodo]; [userID] is what
    [middleware.GetUserID(c)] reads from the request. *)
Definition CreateTodo (validate : CreateTodoPayload -> bool) (userID : string)
    (bound : option CreateTodoPayload) : M (error + (Z * Todo)) :=
  Handle validate (fun payload => Service.CreateTodo userID payload)
         Http.StatusCreated bound.

End Handler.

(* ===================================================================== *)
(** * internal/cron *)
(* ===================================================================== *)

Module Cron.

(** [jobCtx.Config.Cron]. *)
Record CronConfig := {
  ArchiveDaysThreshold : Z;
  BatchSize : Z;
  ReminderHours : Z;
  MaxTodosPerUserNotification : Z
}.

(** [func DefaultCronConfig() *CronConfig]. *)
Definition DefaultCronConfig : CronConfig :=
  {| ArchiveDaysThreshold := 30;
     BatchSize := 100;
     ReminderHours := 24;
     MaxTodosPerUserNotification := 10 |}.

(** The body of the [for _, todo := range todos] loop of [Run], over what is
    left of the slice, with the two variables it updates. *)
Fixpoint Run_loop (cfg : CronConfig) (todos : list Todo)
    (userTodos : gmap string (list string)) (enqueuedCount : Z)
    : M (gmap string (list string) * Z) :=
  match todos with
  | [] => ret (userTodos, enqueuedCount)
  | todo :: rest =>
      let seen := default [] (userTodos !! UserID todo) in
      let userTodos' :=
        if Z.of_nat (length seen) <? MaxTodosPerUserNotification cfg then
          <[UserID todo := (seen ++ [Title todo])%list]> userTodos
        else userTodos in
      match DueDate todo with
      | None => panic "invalid memory address or nil pointer dereference"
      | Some due =>
          let reminderTask :=
            {| rUserID := UserID todo; rTodoID := ID todo;
               rTodoTitle := Title todo; rDueDate := due;
               rTaskType := "due_date_reminder" |} in
          e <~ Job.EnqueueReminderEmail reminderTask ;;
          match e with
          | Some err =>
              log_event "error"
                [("error", LErr err); ("todo_id", LStr (UUID_String (ID todo)))]
                "Failed to enqueue reminder email" ;;;
              Run_loop cfg rest userTodos' enqueuedCount
          | None => Run_loop cfg rest userTodos' (enqueuedCount + 1)
          end
      end
  end.

(** [func (j *DueDateRemindersJob) Run]. *)
Definition Run (cfg : CronConfig) : M (option error) :=
  r <~ Repository.GetTodosDueInHours (ReminderHours cfg) (BatchSize cfg) ;;
  match r with
  | inl err => ret (Some err)
  | inr todos =>
      log_event "info" [("todo_count", LInt (Z.of_nat (length todos)))]
        "Found todos due soon" ;;;
      st <~ Run_loop cfg todos ∅ 0 ;;
      log_event "info"
        [("enqueued_count", LInt (snd st));
         ("total_todos", LInt (Z.of_nat (length todos)))]
        "Due date reminder emails enqueued" ;;;
      ret None
  end.

End Cron.

(* ===================================================================== *)
(** * Vocabulary of the statements *)
(* ===================================================================== *)

(** The answer the store has in stock for the next statement. *)
Definition next_fault (w : World) : Fault := hd NoFault (db_script (db w)).

(** The record a create leaves in [todos] when the store takes the insert:
    the generated identifier [id], the store's time [now] twice, the bound
    values of the command, and the column defaults for the rest. *)
Definition created_todo (id : UUID) (now : Time) (sort : Z) (userID : string)
    (payload : CreateTodoPayload) : Todo :=
  {| ID := id; CreatedAt := now; UpdatedAt := now;
     UserID := userID; Title := pTitle payload;
     Description := pDescription payload;
     Priority_ := default PriorityMedium (pPriority payload);
     Status_ := todos_status_default;
     DueDate := pDueDate payload; CompletedAt := None;
     ParentTodoID := pParentTodoID payload; CategoryID := pCategoryID payload;
     Metadata_ := pMetadata payload; SortOrder := sort |}.

(** The statement [CreateTodo] sends to the pool. *)
Definition CreateTodo_statement (userID : string) (payload : CreateTodoPayload)
    : Statement :=
  SInsert Repository.CreateTodo_stmt
    (Repository.CreateTodo_args userID payload
       (default PriorityMedium (pPriority payload))).

(** Two commands that agree on everything but status and sort order. *)
Definition same_but_status_and_sort_order (p q : CreateTodoPayload) : Prop :=
  pTitle p = pTitle q /\ pDescription p = pDescription q /\
  pPriority p = pPriority q /\ pDueDate p = pDueDate q /\
  pParentTodoID p = pParentTodoID q /\ pCategoryID p = pCategoryID q /\
  pMetadata p = pMetadata q.

(** The closed set of error kinds of the domain. *)
Inductive DomainKind := BadRequest | NotFound | Internal.

(** The kind of an error value, when it is one of the domain's. *)
Definition domain_kind (e : error) : option DomainKind :=
  match e with
  | EHTTP h =>
      if Errs.Status h =? Http.StatusBadRequest then Some BadRequest
      else if Errs.Status h =? Http.StatusNotFound then Some NotFound
      else if Errs.Status h =? Http.StatusInternalServerError then Some Internal
      else None
  | _ => None
  end.

(** The SQLSTATE codes [HandleSQLError] turns into BadRequest. *)
Definition constraint_code (code : string) : bool :=
  bool_decide (code = "23505") || bool_decide (code = "23503")
  || bool_decide (code = "23502").

(** The kind [HandleSQLError] is to give an error. *)
Definition expected_kind (err : error) : DomainKind :=
  match errors_As_PgError err with
  | Some (code, _) =>
      if constraint_code code then BadRequest
      else if errors_Is_ErrNoRows err then NotFound else Internal
  | None => if errors_Is_ErrNoRows err then NotFound else Internal
  end.

(** The messages [HandleSQLError] can give. *)
Definition HandleSQLError_messages : list string :=
  ["Record already exists"; "Referenced record not found";
   "Required field missing"; "Record not found"; "Internal Server Error"].

(** The queue item of the reminder for a selected task. *)
Definition reminder_for (t : Todo) : QueuedTask :=
  Job.reminder_item
    {| rUserID := UserID t; rTodoID := ID t; rTodoTitle := Title t;
       rDueDate := default 0 (DueDate t); rTaskType := "due_date_reminder" |}.

(** The records of a batch, each with the answer the queue's script holds
    for its enqueue: the n-th record meets the n-th answer, and an
    exhausted script answers with success. *)
Fixpoint enqueue_outcomes (script : list (option error)) (batch : list Todo)
    : list (Todo * option error) :=
  match batch with
  | [] => []
  | t :: rest => (t, hd None script) :: enqueue_outcomes (tl script) rest
  end.

(** The records of a batch whose enqueue succeeds. *)
Definition delivered (script : list (option error)) (batch : list Todo) : list Todo :=
  omap (fun o => match snd o with None => Some (fst o) | Some _ => None end)
       (enqueue_outcomes script batch).

(** The log events of the enqueues that fail. *)
Definition enqueue_failure_logs (script : list (option error)) (batch : list Todo)
    : list LogEntry :=
  omap (fun o =>
          match snd o with
          | Some err =>
              Some {| Level := "error";
                      Fields := [("error", LErr err);
                                 ("todo_id", LStr (UUID_String (ID (fst o))))];
                      Msg := "Failed to enqueue reminder email" |}
          | None => None
          end)
       (enqueue_outcomes script batch).

(** The two info events of a run. *)
Definition found_log (count : nat) : LogEntry :=
  {| Level := "info"; Fields := [("todo_count", LInt (Z.of_nat count))];
     Msg := "Found todos due soon" |}.

Definition summary_log (enqueued total : nat) : LogEntry :=
  {| Level := "info";
     Fields := [("enqueued_count", LInt (Z.of_nat enqueued));
                ("total_todos", LInt (Z.of_nat total))];
     Msg := "Due date reminder emails enqueued" |}.

(** The key [UploadTodoAttachment] stores an upload under. *)
Definition attachment_key (userID : string) (todoID fresh : UUID) : string :=
  "attachments/" ++ userID ++ "/" ++ UUID_String todoID ++ "/" ++ UUID_String fresh.

(* ===================================================================== *)
(** * Sample inputs *)
(* ===================================================================== *)

Module Sample.

Definition empty_db : DB :=
  {| todos := []; categories := []; comments := []; attachments := [];
     sort_order_default := 0; db_script := []; db_log := [] |}.

Definition empty_s3 : S3 := {| objects := ∅; s3_script := []; s3_log := [] |}.

Definition empty_queue : Queue :=
  {| tasks := []; queue_script := []; queue_log := [] |}.

Definition world (d : DB) (s : S3) (q : Queue) : World :=
  {| db := d; s3 := s; queue := q; logs := []; clock := 1700000000000000000;
     uuid_source := fun n => N.of_nat (n + 4096); uuid_next := 0 |}.

Definition fresh_world : World := world empty_db empty_s3 empty_queue.

Definition with_script (script : list Fault) (d : DB) : DB :=
  {| todos := todos d; categories := categories d; comments := comments d;
     attachments := attachments d; sort_order_default := sort_order_default d;
     db_script := script; db_log := db_log d |}.

Definition with_todos (l : list Todo) (d : DB) : DB :=
  {| todos := l; categories := categories d; comments := comments d;
     attachments := attachments d; sort_order_default := sort_order_default d;
     db_script := db_script d; db_log := db_log d |}.

(** The command of the spec's scenario: a title and a priority. *)
Definition buy_milk : CreateTodoPayload :=
  {| pTitle := "Buy milk"; pDescription := EmptyString; pPriority := Some PriorityHigh;
     pStatus := EmptyString; pDueDate := None; pParentTodoID := None;
     pCategoryID := None; pMetadata := None; pSortOrder := 0 |}.

(** The same command without a priority. *)
Definition buy_milk_plain : CreateTodoPayload :=
  {| pTitle := "Buy milk"; pDescription := EmptyString; pPriority := None;
     pStatus := EmptyString; pDueDate := None; pParentTodoID := None;
     pCategoryID := None; pMetadata := None; pSortOrder := 0 |}.

(** The same command asking for a status and a sort order. *)
Definition buy_milk_draft : CreateTodoPayload :=
  {| pTitle := "Buy milk"; pDescription := EmptyString; pPriority := Some PriorityHigh;
     pStatus := StatusDraft; pDueDate := None; pParentTodoID := None;
     pCategoryID := None; pMetadata := None; pSortOrder := 7 |}.

Definition task (id : UUID) (owner title : string) (parent : option UUID)
    (due : option Time) (status : Status) : Todo :=
  {| ID := id; CreatedAt := 0; UpdatedAt := 0; UserID := owner; Title := title;
     Description := EmptyString; Priority_ := PriorityLow; Status_ := status;
     DueDate := due; CompletedAt := None; ParentTodoID := parent;
     CategoryID := None; Metadata_ := None; SortOrder := 0 |}.

(** The validator of the create command, as far as the listing of the
    validation module and the spec give it: a title of 1 to 255 characters
    and a description of at most 5000. *)
Definition validate (p : CreateTodoPayload) : bool :=
  (1 <=? String.length (pTitle p))%nat && (String.length (pTitle p) <=? 255)%nat
  && (String.length (pDescription p) <=? 5000)%nat.

(** A uniqueness violation, as the driver reports it. *)
Definition unique_violation : error :=
  EPgError "23505" "duplicate key value violates unique constraint".

(** A store that refuses the next statement with that violation. *)
Definition refusing_world : World :=
  world (with_script [QueryFault unique_violation] empty_db) empty_s3 empty_queue.

(** What the create returns from that store for the scenario's command. *)
Definition wrapped_unique_violation : error :=
  EWrap "failed to execute create todo query for user_id=user_1 title=Buy milk"
        unique_violation.

(** A task of user_1, a subtask of it, and a task of user_2. *)
Definition root_task : Todo :=
  task 1%N "user_1" "Plan trip" None (Some 1700003600000000000) StatusActive.
Definition subtask : Todo :=
  task 2%N "user_1" "Book train" (Some 1%N) (Some 1700007200000000000) StatusActive.
Definition foreign_task : Todo :=
  task 3%N "user_2" "Pay rent" None (Some 1700010800000000000) StatusActive.

Definition family_db : DB := with_todos [root_task; subtask; foreign_task] empty_db.

Definition family_world : World := world family_db empty_s3 empty_queue.

(** A create under the first task. *)
Definition under_root_task : CreateTodoPayload :=
  {| pTitle := "Pack bags"; pDescription := EmptyString; pPriority := None;
     pStatus := EmptyString; pDueDate := None; pParentTodoID := Some 1%N;
     pCategoryID := None; pMetadata := None; pSortOrder := 0 |}.

(** A create under the subtask. *)
Definition under_subtask : CreateTodoPayload :=
  {| pTitle := "Pick seats"; pDescription := EmptyString; pPriority := None;
     pStatus := EmptyString; pDueDate := None; pParentTodoID := Some 2%N;
     pCategoryID := None; pMetadata := None; pSortOrder := 0 |}.

(** An update that completes the first task, and one that reopens it. *)
Definition complete_root : Repository.UpdateTodoPayload :=
  {| Repository.uID := 1%N; Repository.uTitle := None;
     Repository.uDescription := None; Repository.uPriority := None;
     Repository.uStatus := Some StatusCompleted; Repository.uDueDate := None;
     Repository.uSortOrder := None |}.

Definition reopen_root : Repository.UpdateTodoPayload :=
  {| Repository.uID := 1%N; Repository.uTitle := None;
     Repository.uDescription := None; Repository.uPriority := None;
     Repository.uStatus := Some StatusActive; Repository.uDueDate := None;
     Repository.uSortOrder := None |}.

(** The first task once completed, and a world that holds it so. *)
Definition completed_root : Todo := MarkComplete 1700000000000000000 root_task.

Definition completed_world : World :=
  world (with_todos [completed_root; subtask; foreign_task] empty_db)
        empty_s3 empty_queue.

(** A queue that refuses the second enqueue. *)
Definition flaky_queue : Queue :=
  {| tasks := []; queue_script := [None; Some (EOther "redis: connection refused"); None];
     queue_log := [] |}.

Definition reminder_world : World := world family_db empty_s3 flaky_queue.

(** An upload of three bytes for the first task. *)
Definition receipt : Service.FileHeader :=
  {| Service.Filename := "receipt.pdf"; Service.Size := 3;
     Service.HeaderContentType := "application/pdf";
     Service.Open := Some [Byte.x25; Byte.x50; Byte.x44] |}.

Definition foreign_key_violation : error :=
  EPgError "23503" "insert or update on table violates foreign key constraint".

(** The store finds the task and then refuses the insert of the attachment. *)
Definition refusing_attachment_db : DB :=
  with_script [NoFault; QueryFault foreign_key_violation] family_db.

(** The object store takes the upload and the delete. *)
Definition rollback_world : World :=
  world refusing_attachment_db
        {| objects := ∅; s3_script := [None; None]; s3_log := [] |} empty_queue.

(** The object store takes the upload and fails the delete. *)
Definition stuck_world : World :=
  world refusing_attachment_db
        {| objects := ∅;
           s3_script := [None; Some (EOther "s3: service unavailable")];
           s3_log := [] |} empty_queue.

(** The key of the upload in both worlds. *)
Definition receipt_key : string :=
  "attachments/user_1/00000000-0000-0000-0000-000000000001/00000000-0000-0000-0000-000000001000".

End Sample.

(* ===================================================================== *)
(** * internal/middleware *)
(* ===================================================================== *)

Module Middleware.

(** A value kept in the echo context by [c.Set(key, value)]. *)
Inductive Any :=
| AString (s : string)
| AStrings (l : list string).

(** [clerk.SessionClaims], the three fields the middleware reads. *)
Record SessionClaims := {
  Subject : string;
  ActiveOrganizationRole : string;
  ActiveOrganizationPermissions : list string
}.

(** What [clerkhttp.WithHeaderAuthorization] makes of a request: the token
    is refused (the failure handler answers), or the request goes on, with
    the claims of a verified token in its context or without any. *)
Inductive Session :=
| TokenRejected
| NoClaims
| Verified (claims : SessionClaims).

(** What came of a request: a response written by the middleware itself,
    or what the next handler returned. *)
Inductive Served (R : Type) :=
| Written (status : Z) (body : gmap string string)
| Handled (r : R).
Arguments Written {R} status body.
Arguments Handled {R} r.

(** [func GetUserID(c echo.Context) string] of internal/middleware/context.go. *)
Definition GetUserID (c : gmap string Any) : string :=
  match c !! "user_id" with
  | Some (AString userID) => userID
  | _ => EmptyString
  end.

(** The body the failure handler of [RequireAuth] encodes. *)
Definition unauthorized_body : gmap string string :=
  <["code" := "UNAUTHORIZED"]>
  (<["message" := "Unauthorized"]>
  (<["override" := "false"]>
  (<["status" := "401"]> ∅))).

(** [func (auth *AuthMiddleware) RequireAuth(next)], applied to a request
    with context [c]. The failure handler writes its body to the response;
    a writer that fails the encoding is not modelled. *)
Definition RequireAuth {R : Type} (next : gmap string Any -> M (error + R))
    (session : Session) (c : gmap string Any) : M (error + Served R) :=
  match session with
  | TokenRejected =>
      start <~ time_Now ;;
      ok (Written Http.StatusUnauthorized unauthorized_body)
  | NoClaims =>
      start <~ time_Now ;;
      log_event "error" [] "could not get session claims" ;;;
      fail (EHTTP (Errs.NewUnauthorizedError "Unauthorized" false))
  | Verified claims =>
      start <~ time_Now ;;
      let c1 := <["user_id" := AString (Subject claims)]> c in
      let c2 := <["user_role" := AString (ActiveOrganizationRole claims)]> c1 in
      let c3 := <["permissions" := AStrings (ActiveOrganizationPermissions claims)]> c2 in
      now <~ time_Now ;;
      log_event "info"
        [("user_id", LStr (Subject claims)); ("duration", LInt (now - start))]
        "user authenticated successfully" ;;;
      r <~ next c3 ;;
      match r with
      | inl err => fail err
      | inr response => ok (Handled response)
      end
  end.

(** [func (h *TodoHandler) CreateTodo(c echo.Context)] as the router calls
    it: the principal is read from the context of the request. *)
Definition TodoHandler_CreateTodo (validate : CreateTodoPayload -> bool)
    (bound : option CreateTodoPayload) (c : gmap string Any)
    : M (error + (Z * Todo)) :=
  Handler.CreateTodo validate (GetUserID c) bound.

End Middleware.

(* ===================================================================== *)
(** * internal/database: the tracer chain *)
(* ===================================================================== *)

Module Database.

Section MultiTracer.

Variables Ctx Data : Type.



End MultiTracer.

End Database.

(* ===================================================================== *)
(** * The listings of the guide: idioms and the create path *)
(* ===================================================================== *)

Module Guide.

(** [func (t Todo) IsOverdue() bool] of the guide's idioms: the variant
    with a value receiver, which does not look at the status. *)
Definition IsOverdue (now : Time) (t : Todo) : bool :=
  match DueDate t with
  | None => false
  | Some due => Before due now
  end.

(** The command as the guide's two [CreateTodo] listings read it: priority
    and status are plain strings there. *)
Record CreateTodoPayload := {
  gTitle : string;
  gDescription : string;
  gPriority : Priority;
  gStatus : Status;
  gDueDate : option Time;
  gParentTodoID : option UUID;
  gCategoryID : option UUID;
  gMetadata : option Metadata;
  gSortOrder : Z
}.

(** [payload.Status = todo.StatusActive]: the payload after the assignment. *)
Definition with_status (status : Status) (payload : CreateTodoPayload)
    : CreateTodoPayload :=
  {| gTitle := gTitle payload; gDescription := gDescription payload;
     gPriority := gPriority payload; gStatus := status;
     gDueDate := gDueDate payload; gParentTodoID := gParentTodoID payload;
     gCategoryID := gCategoryID payload; gMetadata := gMetadata payload;
     gSortOrder := gSortOrder payload |}.

(** The statement of the guide's repository [CreateTodo]: ten columns, ten
    positional arguments. *)
Definition CreateTodo_stmt : InsertStmt :=
  {| Into := "todos";
     Columns := ["user_id"; "title"; "description"; "priority"; "status";
                 "due_date"; "parent_todo_id"; "category_id"; "metadata";
                 "sort_order"];
     Values := ["$1"; "$2"; "$3"; "$4"; "$5"; "$6"; "$7"; "$8"; "$9"; "$10"] |}.

(** The ten arguments of the [QueryRow] call, by position. *)
Definition CreateTodo_args (userID : string) (payload : CreateTodoPayload)
    : gmap string SqlValue :=
  <["$1" := SqlText userID]>
  (<["$2" := SqlText (gTitle payload)]>
  (<["$3" := SqlText (gDescription payload)]>
  (<["$4" := SqlText (gPriority payload)]>
  (<["$5" := SqlText (gStatus payload)]>
  (<["$6" := sql_time (gDueDate payload)]>
  (<["$7" := sql_uuid (gParentTodoID payload)]>
  (<["$8" := sql_uuid (gCategoryID payload)]>
  (<["$9" := sql_jsonb (gMetadata payload)]>
  (<["$10" := SqlInt (gSortOrder payload)]> ∅))))))))).

(** [Scan(&t.ID, &t.CreatedAt, &t.UpdatedAt)] on the returned row. *)
Definition scan_generated (row : gmap string SqlValue) : option (UUID * Time * Time) :=
  id ← scan_uuid (col row "id");
  created ← scan_time (col row "created_at");
  updated ← scan_time (col row "updated_at");
  Some (id, created, updated).

(** The guide's [func (r *TodoRepository) CreateTodo]: the generated values
    are scanned from the row, the other fields are taken from the payload. *)
Definition Repository_CreateTodo (userID : string) (payload : CreateTodoPayload)
    : M (error + Todo) :=
  r <~ Pool_Query_Insert CreateTodo_stmt (CreateTodo_args userID payload) ;;
  match r with
  | inl err => fail err
  | inr rows =>
      match CollectOneRow rows scan_generated with
      | inl err => fail err
      | inr (id, created, updated) =>
          ok {| ID := id; CreatedAt := created; UpdatedAt := updated;
                UserID := userID; Title := gTitle payload;
                Description := gDescription payload;
                Priority_ := gPriority payload; Status_ := gStatus payload;
                DueDate := gDueDate payload; CompletedAt := None;
                ParentTodoID := gParentTodoID payload;
                CategoryID := gCategoryID payload;
                Metadata_ := gMetadata payload;
                SortOrder := gSortOrder payload |}
      end
  end.

(** The guide's [func (s *TodoService) CreateTodo]: category first, then
    parent, then the default status, then the repository. *)
Definition Service_CreateTodo (userID : string) (payload : CreateTodoPayload)
    : M (error + Todo) :=
  category_checked <~
    match gCategoryID payload with
    | Some categoryID =>
        r <~ Repository.GetCategoryByID userID categoryID ;;
        match r with
        | inl _ =>
            fail (EHTTP (Errs.NewBadRequestError "Category not found"
                           false None [] None))
        | inr _ => ok tt
        end
    | None => ok tt
    end ;;
  match category_checked with
  | inl err => fail err
  | inr _ =>
      parent_checked <~
        match gParentTodoID payload with
        | Some parentID =>
            r <~ Repository.CheckTodoExists userID parentID ;;
            match r with
            | inl _ =>
                fail (EHTTP (Errs.NewBadRequestError "Parent todo not found"
                               false None [] None))
            | inr parent =>
                if negb (CanHaveChildren parent) then
                  fail (EHTTP (Errs.NewBadRequestError
                                 "Cannot create subtask of a subtask"
                                 false None [] None))
                else ok tt
            end
        | None => ok tt
        end ;;
      match parent_checked with
      | inl err => fail err
      | inr _ =>
          let payload' :=
            if bool_decide (gStatus payload = EmptyString)
            then with_status StatusActive payload
            else payload in
          r <~ Repository_CreateTodo userID payload' ;;
          match r with
          | inl err => fail err
          | inr createdTodo => ok createdTodo
          end
      end
  end.

End Guide.

(* ===================================================================== *)
(** * internal/lib/job: the worker side *)
(* ===================================================================== *)

Module Worker.

(** [type AuthServiceInterface interface], the worker's view of the
    identity provider. *)
Class AuthServiceInterface := {
  GetUserEmail : string -> error + string
}.

(** [type MockAuthService struct{}] of the guide. *)
Definition MockAuthService : AuthServiceInterface :=
  {| GetUserEmail := fun _ => inr "test@example.com" |}.

(** [email.Email]. *)
Record Email := {
  To : list string;
  Subject : string;
  HTML : string
}.

(** The delivery provider as the worker meets it: what it has delivered,
    the answers it will give to the sends to come ([None] for success),
    every send it was asked for, and the worker's log. *)
Record Mail := {
  outbox : list Email;
  send_script : list (option error);
  send_log : list Email;
  worker_logs : list LogEntry
}.

(** [j.emailClient.SendEmail(ctx, &email.Email{...})]. *)
Definition SendEmail (e : Email) (m : Mail) : option error * Mail :=
  match hd None (send_script m) with
  | Some err =>
      (Some err,
       {| outbox := outbox m; send_script := tl (send_script m);
          send_log := send_log m ++ [e]; worker_logs := worker_logs m |})
  | None =>
      (None,
       {| outbox := outbox m ++ [e]; send_script := tl (send_script m);
          send_log := send_log m ++ [e]; worker_logs := worker_logs m |})
  end.

Definition worker_log (level : string) (fields : list (string * LogValue))
    (msg : string) (m : Mail) : Mail :=
  {| outbox := outbox m; send_script := send_script m; send_log := send_log m;
     worker_logs := worker_logs m
                    ++ [{| Level := level; Fields := fields; Msg := msg |}] |}.

Section Handler.

Context {authService : AuthServiceInterface}.

(** [j.emailClient.RenderTemplate(name, data)] and
    [task.DueDate.Format("Jan 2, 2006 at 3:04 PM")]: the template engine and
    the calendar are outside this code. *)
Variable RenderTemplate : string -> gmap string string -> error + string.
Variable Format : Time -> string.

(** The data the reminder template is rendered with. *)
Definition emailData (task : ReminderEmailTask) : gmap string string :=
  <["TodoTitle" := rTodoTitle task]>
  (<["DueDate" := Format (rDueDate task)]>
  (<["TaskType" := rTaskType task]> ∅)).

(** [func (j *JobService) handleReminderEmailTask]; [decoded] is what
    [json.Unmarshal] makes of the payload of the task. *)
Definition handleReminderEmailTask (decoded : error + ReminderEmailTask)
    (m : Mail) : option error * Mail :=
  match decoded with
  | inl err => (Some err, m)
  | inr task =>
      match GetUserEmail (rUserID task) with
      | inl err => (Some err, m)
      | inr userEmail =>
          match RenderTemplate "reminder" (emailData task) with
          | inl err => (Some err, m)
          | inr htmlBody =>
              let sent :=
                SendEmail {| To := [userEmail];
                             Subject := "Reminder: " ++ rTodoTitle task;
                             HTML := htmlBody |} m in
              match fst sent with
              | Some err =>
                  (Some err,
                   worker_log "error" [("error", LErr err)]
                     "Failed to send reminder email" (snd sent))
              | None =>
                  (None,
                   worker_log "info"
                     [("user_id", LStr (rUserID task));
                      ("todo_id", LStr (UUID_String (rTodoID task)))]
                     "Reminder email sent successfully" (snd sent))
              end
          end
      end
  end.

End Handler.

End Worker.

(* ===================================================================== *)
(** * Further vocabulary and sample inputs *)
(* ===================================================================== *)

(** An error under a stack of [fmt.Errorf("...: %w", err)] wrappings, the
    outermost context first. *)
Definition wrap_all (contexts : list string) (e : error) : error :=
  foldr EWrap e contexts.

(** The event [Service.CreateTodo] logs for a created record. *)
Definition created_event (t : Todo) : LogEntry :=
  {| Level := "info";
     Fields := [("event", LStr "todo_created");
                ("todo_id", LStr (UUID_String (ID t)));
                ("title", LStr (Title t));
                ("category_id", LStr (Service.category_id_field t));
                ("priority", LStr (Priority_ t))];
     Msg := "Todo created successfully" |}.

(** The identifier the store will generate next. *)
Definition next_id (w : World) : UUID := uuid_source w (uuid_next w).

(** No record of a table is the child of a record that has a parent. *)
Definition two_levels (l : list Todo) : Prop :=
  forall child parent,
    child ∈ l -> parent ∈ l ->
    ParentTodoID child = Some (ID parent) -> ParentTodoID parent = None.

(** The command as the guide's service hands it to the repository. *)
Definition effective (payload : Guide.CreateTodoPayload) : Guide.CreateTodoPayload :=
  if bool_decide (Guide.gStatus payload = EmptyString)
  then Guide.with_status StatusActive payload
  else payload.

(** The record the guide's create returns and leaves in [todos] when the
    store takes the insert. *)
Definition guide_created_todo (id : UUID) (now : Time) (userID : string)
    (payload : Guide.CreateTodoPayload) : Todo :=
  {| ID := id; CreatedAt := now; UpdatedAt := now;
     UserID := userID; Title := Guide.gTitle payload;
     Description := Guide.gDescription payload;
     Priority_ := Guide.gPriority payload; Status_ := Guide.gStatus payload;
     DueDate := Guide.gDueDate payload; CompletedAt := None;
     ParentTodoID := Guide.gParentTodoID payload;
     CategoryID := Guide.gCategoryID payload;
     Metadata_ := Guide.gMetadata payload;
     SortOrder := Guide.gSortOrder payload |}.

(** The three rejections of the guide's service. *)
Definition guide_rejections : list error :=
  [EHTTP (Errs.NewBadRequestError "Category not found" false None [] None);
   EHTTP (Errs.NewBadRequestError "Parent todo not found" false None [] None);
   EHTTP (Errs.NewBadRequestError "Cannot create subtask of a subtask"
            false None [] None)].

(** The number of lookups the guide's service makes for a command: one
    for a category reference, one for a parent reference. *)
Definition references (payload : Guide.CreateTodoPayload) : nat :=
  (match Guide.gCategoryID payload with Some _ => 1 | None => 0 end
   + match Guide.gParentTodoID payload with Some _ => 1 | None => 0 end)%nat.

(** The answer the store has in stock for the statement that comes after
    [n] others. *)
Definition answer_at (n : nat) (w : World) : Fault :=
  hd NoFault (drop n (db_script (db w))).



(** The email of a reminder. *)
Definition reminder_email (address : string) (task : ReminderEmailTask)
    (html : string) : Worker.Email :=
  {| Worker.To := [address];
     Worker.Subject := "Reminder: " ++ rTodoTitle task;
     Worker.HTML := html |}.

(** The three steps before the send went well: the payload decoded to
    [task], the identity provider gave [address], the template rendered to
    [html]. *)
Definition prepared `{Worker.AuthServiceInterface}
    (RenderTemplate : string -> gmap string string -> error + string)
    (Format : Time -> string) (decoded : error + ReminderEmailTask)
    (task : ReminderEmailTask) (address html : string) : Prop :=
  decoded = inr task /\
  Worker.GetUserEmail (rUserID task) = inr address /\
  RenderTemplate "reminder" (Worker.emailData Format task) = inr html.

Module Fixture.

(** A store that is down: it refuses the next statement. *)
Definition outage : error := EOther "connection refused".

Definition out_world : World :=
  Sample.world (Sample.with_script [QueryFault outage] Sample.family_db)
               Sample.empty_s3 Sample.empty_queue.

(** A command that names a parent and a category. *)
Definition with_references : CreateTodoPayload :=
  {| pTitle := "Pack bags"; pDescription := EmptyString; pPriority := None;
     pStatus := EmptyString; pDueDate := None; pParentTodoID := Some 1%N;
     pCategoryID := Some 9%N; pMetadata := None; pSortOrder := 0 |}.

(** A create under a parent that is not in the table. *)
Definition under_ghost : CreateTodoPayload :=
  {| pTitle := "Pick seats"; pDescription := EmptyString; pPriority := None;
     pStatus := EmptyString; pDueDate := None; pParentTodoID := Some 77%N;
     pCategoryID := Some 9%N; pMetadata := None; pSortOrder := 0 |}.

(** The claims of a verified session. *)
Definition claims : Middleware.SessionClaims :=
  {| Middleware.Subject := "user_1";
     Middleware.ActiveOrganizationRole := "member";
     Middleware.ActiveOrganizationPermissions := [] |}.

(** A context that already holds another principal. *)
Definition stale_context : gmap string Middleware.Any :=
  <["user_id" := Middleware.AString "user_2"]> ∅.

(** A context without a principal: the middleware did not run. *)
Definition role_only : gmap string Middleware.Any :=
  <["user_role" := Middleware.AString "member"]> ∅.

(** A configuration that lists no title per user. *)
Definition terse_config : Cron.CronConfig :=
  {| Cron.ArchiveDaysThreshold := 7; Cron.BatchSize := 100;
     Cron.ReminderHours := 24; Cron.MaxTodosPerUserNotification := 0 |}.

(** A task without a due timestamp between two that have one. *)
Definition undated : Todo :=
  Sample.task 4%N "user_1" "Someday" None None StatusActive.

(** An upload that the object store refuses. *)
Definition refusing_s3_world : World :=
  Sample.world Sample.family_db
    {| objects := ∅; s3_script := [Some (EOther "s3: access denied")];
       s3_log := [] |} Sample.empty_queue.

(** The guide's command of the scenario, without and with a status. *)
Definition guide_buy_milk : Guide.CreateTodoPayload :=
  {| Guide.gTitle := "Buy milk"; Guide.gDescription := EmptyString;
     Guide.gPriority := PriorityHigh; Guide.gStatus := EmptyString;
     Guide.gDueDate := None; Guide.gParentTodoID := None;
     Guide.gCategoryID := None; Guide.gMetadata := None;
     Guide.gSortOrder := 3 |}.

Definition guide_under_ghost : Guide.CreateTodoPayload :=
  {| Guide.gTitle := "Pick seats"; Guide.gDescription := EmptyString;
     Guide.gPriority := PriorityLow; Guide.gStatus := StatusDraft;
     Guide.gDueDate := None; Guide.gParentTodoID := Some 77%N;
     Guide.gCategoryID := None; Guide.gMetadata := None;
     Guide.gSortOrder := 0 |}.

(** A reminder as the job queues it, and a provider that delivers. *)
Definition reminder : ReminderEmailTask :=
  {| rUserID := "user_1"; rTodoID := 1%N; rTodoTitle := "Plan trip";
     rDueDate := 1700003600000000000; rTaskType := "due_date_reminder" |}.

Definition mailer (script : list (option error)) : Worker.Mail :=
  {| Worker.outbox := []; Worker.send_script := script;
     Worker.send_log := []; Worker.worker_logs := [] |}.

(** A renderer and a date format to run the handler with. *)
Definition render (name : string) (data : gmap string string) : error + string :=
  inr ("<h1>Reminder: " ++ default EmptyString (data !! "TodoTitle") ++ "</h1>").

Definition date (t : Time) : string := "Nov 14, 2023 at 11:13 PM".

End Fixture.

(** Identifiers are unique in a table that is written out. *)
Ltac unique_ids := apply (bool_decide_unpack _); vm_compute; exact I.

Local Open Scope list_scope.

(* ===================================================================== *)
(** * The task model *)
(* ===================================================================== *)

(** C9. A completed task is never overdue, whatever its due timestamp; a
    task is overdue exactly when it has a due timestamp before the current
    time and its status is not "completed". *)
Theorem IsOverdue_not_for_completed (now : Time) (t : Todo) :
  (Status_ t = StatusCompleted -> IsOverdue now t = false) /\
  (IsOverdue now t = true <->
   exists due, DueDate t = Some due /\ due < now /\ Status_ t <> StatusCompleted).
Proof.
  unfold IsOverdue, Before. split.
  - intros Hs. destruct (DueDate t); [|reflexivity].
    rewrite bool_decide_eq_true_2 by exact Hs. apply andb_false_r.
  - destruct (DueDate t) as [due|]; split.
    + intros H. apply andb_true_iff in H as [Hlt Hst].
      exists due. repeat split; [lia|].
      intros Hs. rewrite bool_decide_eq_true_2 in Hst by exact Hs. discriminate.
    + intros (d & Hd & Hlt & Hst). injection Hd as ->.
      apply andb_true_iff. split; [lia|].
      rewrite bool_decide_eq_false_2 by exact Hst. reflexivity.
    + discriminate.
    + intros (d & Hd & _). discriminate.
Qed.

(** A completed task whose due timestamp has passed is not overdue, and the
    same task while still active is. *)
Lemma IsOverdue_not_for_completed_witness :
  IsOverdue 2000 (Sample.task 1%N "user_1" "Buy milk" None (Some 1000) StatusCompleted) = false
  /\ IsOverdue 2000 (Sample.task 1%N "user_1" "Buy milk" None (Some 1000) StatusActive) = true.
Proof.
  split.
  - apply (IsOverdue_not_for_completed 2000
             (Sample.task 1%N "user_1" "Buy milk" None (Some 1000) StatusCompleted)).
    reflexivity.
  - apply (IsOverdue_not_for_completed 2000
             (Sample.task 1%N "user_1" "Buy milk" None (Some 1000) StatusActive)).
    exists 1000. split; [reflexivity | split; [lia | discriminate]].
Defined.

(* ===================================================================== *)
(** * The data-access create *)
(* ===================================================================== *)

(** What [RowToStructByName] reads back from the row of a create. *)
Lemma created_row id now sort userID payload :
  RowToStructByName_Todo
    (bind_columns Repository.CreateTodo_stmt
       (Repository.CreateTodo_args userID payload
          (default PriorityMedium (pPriority payload)))
       (todos_column_defaults id now sort))
  = Some (created_todo id now sort userID payload).
Proof.
  destruct payload as [ti de pr st du pa ca me so]; unfold created_todo; simpl.
  destruct du, pa, ca, me; vm_compute; reflexivity.
Qed.

(** [CreateTodo], run: one statement goes to the pool; by the store's answer
    the row is appended and returned, or the store's error comes back
    wrapped in the message of the branch that met it. *)
Lemma CreateTodo_run userID payload w :
  let w1 := snd (db_begin (CreateTodo_statement userID payload) w) in
  Repository.CreateTodo userID payload w =
  match next_fault w with
  | NoFault =>
      let t := created_todo (uuid_source w (uuid_next w)) (clock w)
                            (sort_order_default (db w)) userID payload in
      (Done (inr t), snd (db_set_todos (todos (db w) ++ [t]) (snd (uuid_New w1))))
  | QueryFault e =>
      (Done (inl (EWrap ("failed to execute create todo query for user_id="
                         ++ userID ++ " title=" ++ pTitle payload)%string e)), w1)
  | RowsFault e =>
      (Done (inl (EWrap ("failed to collect row from table:todos for user_id="
                         ++ userID ++ " title=" ++ pTitle payload)%string e)), w1)
  end.
Proof.
  intros w1. unfold Repository.CreateTodo, Pool_Query_Insert, bind, next_fault.
  change (match pPriority payload with Some p0 => p0 | None => PriorityMedium end)
    with (default PriorityMedium (pPriority payload)).
  fold (CreateTodo_statement userID payload).
  unfold db_begin at 1. fold w1. simpl.
  destruct (hd NoFault (db_script (db w))) eqn:Hf; simpl; try reflexivity.
  unfold w1 at 1. simpl.
  rewrite created_row. unfold ok, ret, CollectOneRow, db_set_todos, bind. simpl.
  rewrite created_row. reflexivity.
Qed.

(** The names bound by the [NamedArgs] of a create. *)
Lemma CreateTodo_args_dom userID payload priority :
  dom (Repository.CreateTodo_args userID payload priority)
  = list_to_set (Columns Repository.CreateTodo_stmt).
Proof.
  unfold Repository.CreateTodo_args. rewrite !dom_insert_L, dom_empty_L.
  simpl. set_solver.
Qed.

(** C3. When the store takes the insert, the create returns the record it
    appended to the table; that record has priority "medium" when the
    command has none, and the priority of the command when it has one. The
    statement sent binds that same priority. *)
Theorem CreateTodo_priority_defaults_to_medium
    (userID : string) (payload : CreateTodoPayload) (w : World) :
  next_fault w = NoFault ->
  exists t w' args,
    Repository.CreateTodo userID payload w = (Done (inr t), w') /\
    todos (db w') = todos (db w) ++ [t] /\
    db_log (db w') = db_log (db w) ++ [SInsert Repository.CreateTodo_stmt args] /\
    args !! "priority" = Some (SqlText (Priority_ t)) /\
    (pPriority payload = None -> Priority_ t = "medium") /\
    (forall priority, pPriority payload = Some priority -> Priority_ t = priority).
Proof.
  intros Hf. pose proof (CreateTodo_run userID payload w) as Hrun.
  simpl in Hrun. rewrite Hf in Hrun.
  eexists _, _, _. split; [exact Hrun|].
  repeat split.
  - intros Hp. simpl. rewrite Hp. reflexivity.
  - intros priority Hp. simpl. rewrite Hp. reflexivity.
Qed.

(** The scenario's command without a priority, on an empty store. *)
Lemma CreateTodo_priority_defaults_to_medium_witness :
  next_fault Sample.fresh_world = NoFault /\
  exists t w' args,
    Repository.CreateTodo "user_1" Sample.buy_milk_plain Sample.fresh_world
      = (Done (inr t), w') /\
    todos (db w') = todos (db Sample.fresh_world) ++ [t] /\
    db_log (db w') = db_log (db Sample.fresh_world)
                     ++ [SInsert Repository.CreateTodo_stmt args] /\
    args !! "priority" = Some (SqlText (Priority_ t)) /\
    (pPriority Sample.buy_milk_plain = None -> Priority_ t = "medium") /\
    (forall priority, pPriority Sample.buy_milk_plain = Some priority ->
                      Priority_ t = priority).
Proof.
  split; [reflexivity|].
  apply (CreateTodo_priority_defaults_to_medium "user_1" Sample.buy_milk_plain
           Sample.fresh_world).
  reflexivity.
Defined.

(** C8. The insert of the create names exactly eight columns, user_id,
    title, description, priority, due_date, parent_todo_id, category_id and
    metadata, and binds exactly those eight names. Status and sort order of
    the command reach neither the statement nor the record: two commands
    that differ only there give the same result in the same world, and a
    record that is created has the status and the sort order of the
    column defaults. *)
Theorem CreateTodo_ignores_status_and_sort_order
    (userID : string) (p : CreateTodoPayload) (w : World) :
  (exists args,
     db_log (db (snd (Repository.CreateTodo userID p w)))
       = db_log (db w) ++ [SInsert Repository.CreateTodo_stmt args] /\
     Columns Repository.CreateTodo_stmt
       = ["user_id"; "title"; "description"; "priority"; "due_date";
          "parent_todo_id"; "category_id"; "metadata"]%string /\
     dom args = list_to_set (Columns Repository.CreateTodo_stmt) /\
     args !! "status"%string = None /\ args !! "sort_order"%string = None) /\
  (forall q, same_but_status_and_sort_order p q ->
     Repository.CreateTodo userID q w = Repository.CreateTodo userID p w) /\
  (forall t, fst (Repository.CreateTodo userID p w) = Done (inr t) ->
     Status_ t = todos_status_default /\
     SortOrder t = sort_order_default (db w) /\
     last (todos (db (snd (Repository.CreateTodo userID p w)))) = Some t).
Proof.
  split; [|split].
  - exists (Repository.CreateTodo_args userID p (default PriorityMedium (pPriority p))).
    rewrite CreateTodo_run. split; [|split; [reflexivity|split; [|split; reflexivity]]].
    + destruct (next_fault w); reflexivity.
    + apply CreateTodo_args_dom.
  - intros q (Hti & Hde & Hpr & Hdu & Hpa & Hca & Hme).
    destruct p as [ti de pr st du pa ca me so], q as [ti' de' pr' st' du' pa' ca' me' so'].
    simpl in *. subst. rewrite !CreateTodo_run. reflexivity.
  - intros t. rewrite CreateTodo_run. destruct (next_fault w); simpl; try discriminate.
    intros [= <-]. split; [reflexivity|]. split; [reflexivity|].
    apply last_snoc.
Qed.

(** The scenario's command, once as it is and once asking for the status
    "draft" and the sort order 7: the same record is created. *)
Lemma CreateTodo_ignores_status_and_sort_order_witness :
  same_but_status_and_sort_order Sample.buy_milk Sample.buy_milk_draft /\
  Repository.CreateTodo "user_1" Sample.buy_milk_draft Sample.fresh_world
  = Repository.CreateTodo "user_1" Sample.buy_milk Sample.fresh_world.
Proof.
  assert (H : same_but_status_and_sort_order Sample.buy_milk Sample.buy_milk_draft)
    by (repeat split).
  split; [exact H|].
  exact (proj1 (proj2 (CreateTodo_ignores_status_and_sort_order
                         "user_1" Sample.buy_milk Sample.fresh_world))
               Sample.buy_milk_draft H).
Defined.

(* ===================================================================== *)
(** * The create path, from the handler down *)
(* ===================================================================== *)

(** The service's create for a command with neither a parent nor a category
    reference: straight to the repository, then one log event. *)
Lemma Service_CreateTodo_plain userID payload w :
  pParentTodoID payload = None ->
  pCategoryID payload = None ->
  next_fault w = NoFault ->
  exists w',
    Service.CreateTodo userID payload w
    = (Done (inr (created_todo (uuid_source w (uuid_next w)) (clock w)
                               (sort_order_default (db w)) userID payload)), w') /\
    db w' = db (snd (Repository.CreateTodo userID payload w)).
Proof.
  intros Hpa Hca Hf. unfold Service.CreateTodo. rewrite Hpa, Hca.
  unfold bind at 1. unfold ok at 1, ret at 1.
  unfold bind at 1. unfold ok at 1, ret at 1.
  unfold bind at 1. rewrite CreateTodo_run, Hf. cbv zeta.
  eexists. split; reflexivity.
Qed.

(** C4. A create command that names no status, passes validation, refers to
    no parent and no category, and meets a store that takes the insert, is
    answered with 201 and the created record: its status is "active", its
    priority the one of the command, its due timestamp the one of the
    command (null when the command has none); the record is in the table. *)
Theorem CreateTodo_scenario_created_active
    (validate : CreateTodoPayload -> bool) (userID : string)
    (payload : CreateTodoPayload) (priority : Priority) (w : World) :
  pStatus payload = EmptyString ->
  validate payload = true ->
  pParentTodoID payload = None ->
  pCategoryID payload = None ->
  pPriority payload = Some priority ->
  next_fault w = NoFault ->
  exists t w',
    Handler.CreateTodo validate userID (Some payload) w = (Done (inr (201, t)), w') /\
    Status_ t = "active"%string /\
    Priority_ t = priority /\
    DueDate t = pDueDate payload /\
    CompletedAt t = None /\
    todos (db w') = todos (db w) ++ [t].
Proof.
  intros _ Hv Hpa Hca Hpr Hf.
  destruct (Service_CreateTodo_plain userID payload w Hpa Hca Hf) as (w' & Hrun & Hdb).
  exists (created_todo (uuid_source w (uuid_next w)) (clock w)
                       (sort_order_default (db w)) userID payload), w'.
  split.
  - unfold Handler.CreateTodo, Handler.Handle. rewrite Hv. simpl.
    unfold bind. rewrite Hrun. reflexivity.
  - simpl. rewrite Hpr. repeat split.
    rewrite Hdb, CreateTodo_run, Hf. reflexivity.
Qed.

(** The scenario of the spec: {title: "Buy milk", priority: "high"}. *)
Lemma CreateTodo_scenario_created_active_witness :
  pStatus Sample.buy_milk = EmptyString /\
  Sample.validate Sample.buy_milk = true /\
  next_fault Sample.fresh_world = NoFault /\
  exists t w',
    Handler.CreateTodo Sample.validate "user_1" (Some Sample.buy_milk) Sample.fresh_world
      = (Done (inr (201, t)), w') /\
    Status_ t = "active"%string /\
    Priority_ t = "high"%string /\
    DueDate t = None /\
    CompletedAt t = None /\
    todos (db w') = todos (db Sample.fresh_world) ++ [t].
Proof.
  split; [reflexivity|]. split; [reflexivity|]. split; [reflexivity|].
  apply (CreateTodo_scenario_created_active Sample.validate "user_1"
           Sample.buy_milk "high"%string Sample.fresh_world); reflexivity.
Defined.

(* ===================================================================== *)
(** * Store errors on their way up *)
(* ===================================================================== *)

(** [HandleSQLError] gives a domain error of the expected kind. *)
Lemma HandleSQLError_kind err :
  domain_kind (Sqlerr.HandleSQLError err) = Some (expected_kind err).
Proof.
  unfold Sqlerr.HandleSQLError, expected_kind, constraint_code.
  destruct (errors_As_PgError err) as [[code msg]|].
  - destruct (bool_decide (code = "23505"%string)); [reflexivity|].
    destruct (bool_decide (code = "23503"%string)); [reflexivity|].
    destruct (bool_decide (code = "23502"%string)); [reflexivity|].
    simpl. destruct (errors_Is_ErrNoRows err); reflexivity.
  - destruct (errors_Is_ErrNoRows err); reflexivity.
Qed.

(** [HandleSQLError] answers with one of five fixed messages and keeps
    nothing of the error it was given. *)
Lemma HandleSQLError_opaque err :
  exists h, Sqlerr.HandleSQLError err = EHTTP h /\
            Errs.Message h ∈ HandleSQLError_messages /\
            carries_store_error (Sqlerr.HandleSQLError err) = false.
Proof.
  unfold Sqlerr.HandleSQLError, HandleSQLError_messages.
  destruct (errors_As_PgError err) as [[code msg]|].
  - destruct (bool_decide (code = "23505"%string));
      [eexists; split; [reflexivity|split; [simpl; set_solver|reflexivity]]|].
    destruct (bool_decide (code = "23503"%string));
      [eexists; split; [reflexivity|split; [simpl; set_solver|reflexivity]]|].
    destruct (bool_decide (code = "23502"%string));
      [eexists; split; [reflexivity|split; [simpl; set_solver|reflexivity]]|].
    destruct (errors_Is_ErrNoRows err);
      eexists; (split; [reflexivity|split; [simpl; set_solver|reflexivity]]).
  - destruct (errors_Is_ErrNoRows err);
      eexists; (split; [reflexivity|split; [simpl; set_solver|reflexivity]]).
Qed.

(** C5, as stated, fails on the create: a uniqueness violation met by the
    insert comes back from the repository as the store's own error value
    under a context message, not as a domain error. *)
Lemma CreateTodo_returns_store_error :
  fst (Repository.CreateTodo "user_1" Sample.buy_milk Sample.refusing_world)
    = Done (inl Sample.wrapped_unique_violation) /\
  fst (Service.CreateTodo "user_1" Sample.buy_milk Sample.refusing_world)
    = Done (inl Sample.wrapped_unique_violation) /\
  domain_kind Sample.wrapped_unique_violation = None /\
  carries_store_error Sample.wrapped_unique_violation = true /\
  errors_As_PgError Sample.wrapped_unique_violation
    = Some ("23505", "duplicate key value violates unique constraint")%string /\
  strings_Contains (Error_ Sample.wrapped_unique_violation) "SQLSTATE 23505" = true.
Proof. vm_compute. repeat split; reflexivity. Qed.

(** C5, amended. [HandleSQLError] maps every error to one of three domain
    kinds: BadRequest when a PostgreSQL error with code 23505, 23503 or
    23502 is on its chain, otherwise NotFound when [pgx.ErrNoRows] is,
    otherwise Internal; what it returns has one of five fixed messages and
    no store error on its chain. The data-access create does not apply it:
    an insert the store fails comes back as the store's error wrapped with
    a context message, still on the chain, so that [HandleSQLError] gives
    the wrapped error the kind it gives the store's error. *)
Theorem HandleSQLError_closed_set_above_CreateTodo
    (userID : string) (payload : CreateTodoPayload) (w : World) (err : error) :
  fst (Repository.CreateTodo userID payload w) = Done (inl err) ->
  (exists context cause,
     err = EWrap context cause /\
     (next_fault w = QueryFault cause \/ next_fault w = RowsFault cause) /\
     domain_kind err = None /\
     Sqlerr.HandleSQLError err = Sqlerr.HandleSQLError cause) /\
  domain_kind (Sqlerr.HandleSQLError err) = Some (expected_kind err) /\
  (exists h, Sqlerr.HandleSQLError err = EHTTP h /\
             Errs.Message h ∈ HandleSQLError_messages /\
             carries_store_error (Sqlerr.HandleSQLError err) = false).
Proof.
  intros Hrun. split; [|split].
  - rewrite CreateTodo_run in Hrun.
    destruct (next_fault w) as [|cause|cause]; simpl in Hrun; [discriminate| |];
      injection Hrun as <-; eexists _, cause;
      (split; [reflexivity|split; [auto|split; reflexivity]]).
  - apply HandleSQLError_kind.
  - apply HandleSQLError_opaque.
Qed.

(** The uniqueness violation of the counterexample, mapped: BadRequest,
    "Record already exists". *)
Lemma HandleSQLError_closed_set_above_CreateTodo_witness :
  fst (Repository.CreateTodo "user_1" Sample.buy_milk Sample.refusing_world)
    = Done (inl Sample.wrapped_unique_violation) /\
  domain_kind (Sqlerr.HandleSQLError Sample.wrapped_unique_violation)
    = Some (expected_kind Sample.wrapped_unique_violation) /\
  expected_kind Sample.wrapped_unique_violation = BadRequest.
Proof.
  assert (H : fst (Repository.CreateTodo "user_1" Sample.buy_milk Sample.refusing_world)
              = Done (inl Sample.wrapped_unique_violation)) by reflexivity.
  split; [exact H|]. split; [|reflexivity].
  exact (proj1 (proj2 (HandleSQLError_closed_set_above_CreateTodo
                         "user_1" Sample.buy_milk Sample.refusing_world
                         Sample.wrapped_unique_violation H))).
Defined.

(* ===================================================================== *)
(** * Subtasks of subtasks *)
(* ===================================================================== *)

(** The lookup of a task sends one statement and changes nothing else. *)
Lemma CheckTodoExists_world userID todoID w :
  snd (Repository.CheckTodoExists userID todoID w)
  = snd (db_begin (SQuery "CheckTodoExists" [SqlUuid todoID; SqlText userID]) w).
Proof.
  unfold Repository.CheckTodoExists, bind.
  destruct (db_begin _ w) as [[f|msg] w1] eqn:Hb; [|reflexivity].
  destruct f; try reflexivity. simpl.
  destruct (filter _ _); reflexivity.
Qed.

(** C1. A create whose parent reference resolves, for the owning principal,
    to a task that has a parent itself fails with a BadRequest error whose
    message says "cannot have children". After the lookup the service only
    logs: the table is as it was, and the lookup is the one statement that
    went to the pool, so the data-access create was not invoked. *)
Theorem CreateTodo_rejects_child_of_subtask
    (userID : string) (payload : CreateTodoPayload) (parentID : UUID)
    (parent : Todo) (w w1 : World) :
  pParentTodoID payload = Some parentID ->
  Repository.CheckTodoExists userID parentID w = (Done (inr parent), w1) ->
  ParentTodoID parent <> None ->
  exists h w',
    Service.CreateTodo userID payload w = (Done (inl (EHTTP h)), w') /\
    Errs.Status h = 400 /\
    Errs.Code h = "BAD_REQUEST"%string /\
    strings_Contains (Errs.Message h) "cannot have children" = true /\
    db w' = db w1 /\
    todos (db w') = todos (db w) /\
    db_log (db w')
      = db_log (db w) ++ [SQuery "CheckTodoExists" [SqlUuid parentID; SqlText userID]].
Proof.
  intros Hp Hcheck Hsub.
  assert (Hno : CanHaveChildren parent = false).
  { unfold CanHaveChildren. destruct (ParentTodoID parent); [reflexivity|congruence]. }
  pose proof (CheckTodoExists_world userID parentID w) as Hw.
  rewrite Hcheck in Hw. simpl in Hw.
  eexists _, _. split.
  - unfold Service.CreateTodo. rewrite Hp.
    unfold bind at 1. unfold bind at 1. rewrite Hcheck, Hno. simpl.
    unfold bind, log_event, fail, ret. simpl. reflexivity.
  - simpl. rewrite Hw. repeat split.
Qed.

(** A world with a task, a subtask of it, and a create under the subtask. *)
Lemma CreateTodo_rejects_child_of_subtask_witness :
  pParentTodoID Sample.under_subtask = Some 2%N /\
  fst (Repository.CheckTodoExists "user_1" 2%N Sample.family_world)
    = Done (inr Sample.subtask) /\
  ParentTodoID Sample.subtask <> None /\
  exists h w',
    Service.CreateTodo "user_1" Sample.under_subtask Sample.family_world
      = (Done (inl (EHTTP h)), w') /\
    Errs.Status h = 400 /\
    Errs.Code h = "BAD_REQUEST"%string /\
    strings_Contains (Errs.Message h) "cannot have children" = true /\
    todos (db w') = todos (db Sample.family_world).
Proof.
  assert (Hsub : ParentTodoID Sample.subtask <> None) by discriminate.
  split; [reflexivity|]. split; [reflexivity|]. split; [exact Hsub|].
  destruct (CreateTodo_rejects_child_of_subtask
              "user_1" Sample.under_subtask 2%N Sample.subtask Sample.family_world
              (snd (Repository.CheckTodoExists "user_1" 2%N Sample.family_world))
              eq_refl eq_refl Hsub)
    as (h & w' & Hrun & Hst & Hco & Hmsg & _ & Htodos & _).
  exists h, w'. repeat split; assumption.
Defined.

(** A create under a task that has no parent goes through: the new record
    is a subtask of it. *)
Example CreateTodo_accepts_child_of_task :
  exists t,
    fst (Service.CreateTodo "user_1" Sample.under_root_task Sample.family_world)
      = Done (inr t) /\
    ParentTodoID t = Some 1%N /\ Priority_ t = PriorityMedium /\
    Status_ t = StatusActive.
Proof. eexists. vm_compute. repeat split. Qed.

(* ===================================================================== *)
(** * Reading a task of another principal *)
(* ===================================================================== *)

(** A filter that no element passes. *)
Lemma filter_none {A} (P : A -> Prop) `{forall x, Decision (P x)} (l : list A) :
  (forall x, x ∈ l -> ~ P x) -> filter P l = [].
Proof.
  induction l as [|x l IH]; intros Hno; [reflexivity|].
  rewrite filter_cons_False by (apply Hno; left).
  apply IH. intros y Hy. apply Hno. right. exact Hy.
Qed.

(** With unique identifiers, a row of another owner under the identifier
    leaves no row for the query of [GetTodoByID]. *)
Lemma select_populated_other_owner (d : DB) (todoID : UUID) (userID : string) (t : Todo) :
  NoDup (map ID (todos d)) ->
  t ∈ todos d -> ID t = todoID -> UserID t <> userID ->
  Repository.select_populated d todoID userID = [].
Proof.
  intros Hnd Hin Hid Hown. unfold Repository.select_populated.
  replace (filter (fun t0 => ID t0 = todoID /\ UserID t0 = userID) (todos d))
    with (@nil Todo); [reflexivity|].
  symmetry. apply filter_none.
  intros r Hr [Hrid Hrown].
  assert (r = t); [|subst r; contradiction].
  revert Hnd Hin Hr Hid Hrid. clear. induction (todos d) as [|x l IH]; intros Hnd Hin Hr Hid Hrid.
  - inversion Hin.
  - simpl in Hnd. apply NoDup_cons in Hnd as [Hx Hnd].
    apply elem_of_cons in Hin as [->|Hin]; apply elem_of_cons in Hr as [->|Hr];
      try reflexivity.
    + exfalso. apply Hx. apply list_elem_of_fmap. exists r. split; [congruence|exact Hr].
    + exfalso. apply Hx. apply list_elem_of_fmap. exists t. split; [congruence|exact Hin].
    + apply IH; assumption.
Qed.

(** C2. The read by identifier of the listing does not reach its NotFound
    branch. For user_1 reading the task of user_2, on a store that answers:
    the query, scoped by identifier and owner, selects no row, as the claim
    has it; but [category] is nil where [&category.ID] is evaluated, and the
    call panics where the claim has NotFound. It panics the same way where
    no row has the identifier. *)
Theorem GetTodoByID_other_owner_panics :
  Sample.foreign_task ∈ todos (db Sample.family_world) /\
  ID Sample.foreign_task = 3%N /\
  UserID Sample.foreign_task <> "user_1"%string /\
  next_fault Sample.family_world = NoFault /\
  Repository.select_populated (db Sample.family_world) 3%N "user_1" = [] /\
  fst (Repository.GetTodoByID "user_1" 3%N Sample.family_world)
  = Panicked "invalid memory address or nil pointer dereference" /\
  fst (Repository.GetTodoByID "user_1" 3%N Sample.family_world)
  <> Done (inl (EHTTP (Repository.NewNotFoundError "Todo not found"))) /\
  fst (Repository.GetTodoByID "user_1" 3%N Sample.fresh_world)
  = Panicked "invalid memory address or nil pointer dereference".
Proof.
  assert (Hin : Sample.foreign_task ∈ todos (db Sample.family_world)).
  { simpl. right. right. left. }
  assert (Hown : UserID Sample.foreign_task <> "user_1"%string) by discriminate.
  assert (Hnd : NoDup (map ID (todos (db Sample.family_world)))) by unique_ids.
  split; [exact Hin|]. split; [reflexivity|]. split; [exact Hown|].
  split; [reflexivity|].
  split.
  { exact (select_populated_other_owner (db Sample.family_world) 3%N "user_1"
             Sample.foreign_task Hnd Hin eq_refl Hown). }
  split; [reflexivity|]. split; [discriminate|reflexivity].
Qed.

(* ===================================================================== *)
(** * Status transitions on update *)
(* ===================================================================== *)

(** With unique identifiers, the rows an update hits are the one row. *)
Lemma filter_hit_unique (l : list Todo) (old : Todo) (id : UUID) (userID : string) :
  NoDup (map ID l) ->
  old ∈ l -> ID old = id -> UserID old = userID ->
  List.filter (fun t => bool_decide (ID t = id /\ UserID t = userID)) l = [old].
Proof.
  intros Hnd Hin Hid Hown. induction l as [|x l IH]; [inversion Hin|].
  simpl in Hnd. apply NoDup_cons in Hnd as [Hx Hnd]. simpl.
  apply elem_of_cons in Hin as [<-|Hin].
  - rewrite bool_decide_eq_true_2 by (split; assumption). f_equal.
    clear IH Hnd. induction l as [|y l IH]; [reflexivity|].
    simpl. rewrite bool_decide_eq_false_2.
    + apply IH. intros Hy. apply Hx. simpl. right. exact Hy.
    + intros [Hyid _]. apply Hx. simpl.
      replace (ID old) with (ID y) by congruence. left.
  - rewrite bool_decide_eq_false_2.
    + apply IH; assumption.
    + intros [Hxid _]. apply Hx. apply list_elem_of_fmap.
      exists old. split; [congruence|exact Hin].
Qed.

(** C6. An update that carries a status, on a task of the principal, when
    the store takes it: the stored and returned record has the new status;
    if that status is "completed" its completion timestamp is the time of
    the update, hence not null; if the task was "completed" and the new
    status is another, its completion timestamp is null. *)
Theorem UpdateTodo_completion_timestamp
    (userID : string) (payload : Repository.UpdateTodoPayload) (old : Todo)
    (status : Status) (w : World) :
  next_fault w = NoFault ->
  NoDup (map ID (todos (db w))) ->
  old ∈ todos (db w) ->
  ID old = Repository.uID payload ->
  UserID old = userID ->
  Repository.uStatus payload = Some status ->
  exists t w',
    Repository.UpdateTodo userID payload w = (Done (inr t), w') /\
    t ∈ todos (db w') /\
    ID t = ID old /\
    Status_ t = status /\
    (status = StatusCompleted ->
       CompletedAt t = Some (clock w) /\ CompletedAt t <> None) /\
    (Status_ old = StatusCompleted -> status <> StatusCompleted ->
       CompletedAt t = None).
Proof.
  intros Hf Hnd Hin Hid Hown Hs.
  pose proof (filter_hit_unique _ old _ userID Hnd Hin Hid Hown) as Hhit.
  set (change := fun t => Repository.apply_status (clock w) (Repository.uStatus payload)
                            (Repository.apply_fields (clock w) payload t)).
  exists (change old).
  eexists. split; [|split; [|split; [|split; [|split]]]].
  - unfold Repository.UpdateTodo, bind, db_begin. fold (next_fault w). rewrite Hf.
    simpl. rewrite Hhit. simpl. reflexivity.
  - simpl. apply list_elem_of_fmap. exists old. split; [|exact Hin].
    rewrite bool_decide_eq_true_2 by (split; assumption). reflexivity.
  - unfold change, Repository.apply_status. rewrite Hs.
    destruct (bool_decide (status = StatusCompleted)); reflexivity.
  - unfold change, Repository.apply_status. rewrite Hs.
    destruct (bool_decide (status = StatusCompleted)) eqn:Hc; [|reflexivity].
    apply bool_decide_eq_true_1 in Hc. simpl. congruence.
  - intros ->. unfold change, Repository.apply_status. rewrite Hs.
    rewrite bool_decide_eq_true_2 by reflexivity. simpl. split; [reflexivity|discriminate].
  - intros Hold Hnew. unfold change, Repository.apply_status. rewrite Hs.
    rewrite bool_decide_eq_false_2 by exact Hnew. simpl.
    rewrite bool_decide_eq_true_2 by exact Hold. reflexivity.
Qed.

(** A task is completed, then reopened: the completion timestamp is set by
    the first update and cleared by the second. *)
Lemma UpdateTodo_completion_timestamp_witness :
  (exists t w',
     Repository.UpdateTodo "user_1" Sample.complete_root Sample.family_world
       = (Done (inr t), w') /\
     Status_ t = StatusCompleted /\
     CompletedAt t = Some (clock Sample.family_world)) /\
  (exists t w',
     Repository.UpdateTodo "user_1" Sample.reopen_root Sample.completed_world
       = (Done (inr t), w') /\
     Status_ t = StatusActive /\
     CompletedAt t = None).
Proof.
  split.
  - assert (Hnd : NoDup (map ID (todos (db Sample.family_world)))).
    { unique_ids. }
    assert (Hin : Sample.root_task ∈ todos (db Sample.family_world)) by left.
    destruct (UpdateTodo_completion_timestamp
                "user_1" Sample.complete_root Sample.root_task StatusCompleted
                Sample.family_world eq_refl Hnd Hin eq_refl eq_refl eq_refl)
      as (t & w' & Hrun & _ & _ & Hst & Hset & _).
    exists t, w'. split; [exact Hrun|]. split; [exact Hst|].
    exact (proj1 (Hset eq_refl)).
  - assert (Hnd : NoDup (map ID (todos (db Sample.completed_world)))).
    { unique_ids. }
    assert (Hin : Sample.completed_root ∈ todos (db Sample.completed_world)) by left.
    assert (Hne : StatusActive <> StatusCompleted) by discriminate.
    destruct (UpdateTodo_completion_timestamp
                "user_1" Sample.reopen_root Sample.completed_root StatusActive
                Sample.completed_world eq_refl Hnd Hin eq_refl eq_refl eq_refl)
      as (t & w' & Hrun & _ & _ & Hst & _ & Hclear).
    exists t, w'. split; [exact Hrun|]. split; [exact Hst|].
    exact (Hclear eq_refl Hne).
Defined.

(* ===================================================================== *)
(** * The due-date reminder job *)
(* ===================================================================== *)

(** The selection of the job, when the store answers: the first records in
    table order that are due in the window, no more than the cap. *)
Lemma GetTodosDueInHours_run hours limit w :
  next_fault w = NoFault ->
  Repository.GetTodosDueInHours hours limit w
  = (Done (inr (take (Z.to_nat limit)
                  (List.filter (Repository.due_within (clock w) hours) (todos (db w))))),
     snd (db_begin (SQuery "GetTodosDueInHours" [SqlInt hours; SqlInt limit]) w)).
Proof.
  intros Hf. unfold Repository.GetTodosDueInHours, bind, db_begin.
  fold (next_fault w). rewrite Hf. reflexivity.
Qed.

(** [delivered] and [enqueue_failure_logs], one record at a time. *)
Lemma delivered_cons script t rest :
  delivered script (t :: rest)
  = match hd None script with
    | None => t :: delivered (tl script) rest
    | Some _ => delivered (tl script) rest
    end.
Proof. unfold delivered. simpl. destruct (hd None script); reflexivity. Qed.

Lemma enqueue_failure_logs_cons script t rest :
  enqueue_failure_logs script (t :: rest)
  = match hd None script with
    | None => enqueue_failure_logs (tl script) rest
    | Some err =>
        {| Level := "error";
           Fields := [("error"%string, LErr err);
                      ("todo_id"%string, LStr (UUID_String (ID t)))];
           Msg := "Failed to enqueue reminder email" |}
        :: enqueue_failure_logs (tl script) rest
    end.
Proof. unfold enqueue_failure_logs. simpl. destruct (hd None script); reflexivity. Qed.

Section ReminderJob.

Variable cfg : Cron.CronConfig.

(** The loop of [Run] over a batch of records that all have a due
    timestamp: every record is handed to the queue once, in order; those
    the queue takes are queued and counted; each refusal is logged and the
    loop goes on. *)
Lemma Run_loop_spec batch :
  Forall (fun t => DueDate t <> None) batch ->
  forall userTodos enqueuedCount w,
  exists userTodos' w',
    Cron.Run_loop cfg batch userTodos enqueuedCount w
    = (Done (userTodos',
             enqueuedCount
             + Z.of_nat (length (delivered (queue_script (queue w)) batch))), w') /\
    db w' = db w /\
    tasks (queue w')
      = tasks (queue w) ++ map reminder_for (delivered (queue_script (queue w)) batch) /\
    queue_log (queue w') = queue_log (queue w) ++ map reminder_for batch /\
    logs w' = logs w ++ enqueue_failure_logs (queue_script (queue w)) batch.
Proof.
  induction 1 as [|t rest Hdue _ IH]; intros userTodos enqueuedCount w.
  - exists userTodos, w. simpl. unfold ret, delivered, enqueue_failure_logs. simpl.
    rewrite Z.add_0_r, !app_nil_r. repeat split.
  - destruct (DueDate t) as [due|] eqn:Hd; [|congruence].
    cbn [Cron.Run_loop]. rewrite Hd.
    set (userTodos1 := if _ <? _ then _ else _).
    unfold bind at 1. unfold Job.EnqueueReminderEmail, Job.Enqueue.
    assert (Hitem : Job.reminder_item
                      {| rUserID := UserID t; rTodoID := ID t; rTodoTitle := Title t;
                         rDueDate := due; rTaskType := "due_date_reminder" |}
                    = reminder_for t).
    { unfold reminder_for. rewrite Hd. reflexivity. }
    rewrite Hitem, delivered_cons, enqueue_failure_logs_cons.
    destruct (hd None (queue_script (queue w))) as [err|] eqn:Hq.
    + unfold bind at 1. unfold log_event at 1.
      match goal with |- context [Cron.Run_loop cfg rest userTodos1 enqueuedCount ?w1] =>
        destruct (IH userTodos1 enqueuedCount w1)
          as (ut' & w' & Hrun & Hdb & Hq1 & Hl1 & Hlog)
      end.
      exists ut', w'. rewrite Hrun. simpl in *.
      split; [reflexivity|]. split; [exact Hdb|]. split; [exact Hq1|].
      split; [rewrite Hl1, <- app_assoc; reflexivity|].
      rewrite Hlog, <- app_assoc. reflexivity.
    + match goal with |- context [Cron.Run_loop cfg rest userTodos1 (enqueuedCount + 1) ?w1] =>
        destruct (IH userTodos1 (enqueuedCount + 1) w1)
          as (ut' & w' & Hrun & Hdb & Hq1 & Hl1 & Hlog)
      end.
      exists ut', w'. rewrite Hrun. simpl in *.
      split; [f_equal; f_equal; f_equal; cbn [length]; lia|].
      split; [exact Hdb|].
      split; [rewrite Hq1, <- app_assoc; reflexivity|].
      split; [rewrite Hl1, <- app_assoc; reflexivity|].
      exact Hlog.
Qed.

(** Every record of a batch is either delivered or logged as a failure. *)
Lemma delivered_or_logged script batch :
  (length (delivered script batch) + length (enqueue_failure_logs script batch)
   = length batch)%nat.
Proof.
  revert script.
  induction batch as [|t rest IH]; intros script; [reflexivity|].
  rewrite delivered_cons, enqueue_failure_logs_cons.
  destruct (hd None script); cbn [length]; specialize (IH (tl script)); lia.
Qed.

(** What the selection gives: no more records than the cap, each of them a
    record of the table that is due in the window. *)
Lemma selection_bounded (cap : nat) (now : Time) (hours : Z) (l : list Todo) :
  let batch := take cap (List.filter (Repository.due_within now hours) l) in
  (length batch <= cap)%nat /\
  (forall t, t ∈ batch -> t ∈ l /\ Repository.due_within now hours t = true) /\
  Forall (fun t => DueDate t <> None) batch.
Proof.
  intros batch.
  assert (Hin : forall t, t ∈ batch -> t ∈ l /\ Repository.due_within now hours t = true).
  { intros t Ht. apply (subseteq_take cap) in Ht.
    apply list_elem_of_In, filter_In in Ht as [Ht Hdue].
    split; [apply list_elem_of_In; exact Ht|exact Hdue]. }
  split; [|split].
  - unfold batch. rewrite length_take. lia.
  - exact Hin.
  - apply Forall_forall. intros t Ht. apply Hin in Ht as [_ Hdue].
    unfold Repository.due_within in Hdue. destruct (DueDate t); [discriminate|discriminate].
Qed.

(** C7. When the store answers the selection, a run takes a batch of at
    most cap-many records, each of them a task of the table that is due in
    the window, hands exactly one reminder per record to the queue, in
    order, and returns no error whatever the queue answers: the records the
    queue takes are queued, every refusal is logged, and the count the run
    reports is the number of records queued. *)
Theorem Run_partial_success (w : World) :
  next_fault w = NoFault ->
  exists batch w',
    fst (Repository.GetTodosDueInHours (Cron.ReminderHours cfg) (Cron.BatchSize cfg) w)
      = Done (inr batch) /\
    (length batch <= Z.to_nat (Cron.BatchSize cfg))%nat /\
    (forall t, t ∈ batch ->
       t ∈ todos (db w) /\
       Repository.due_within (clock w) (Cron.ReminderHours cfg) t = true) /\
    Cron.Run cfg w = (Done None, w') /\
    queue_log (queue w') = queue_log (queue w) ++ map reminder_for batch /\
    tasks (queue w')
      = tasks (queue w) ++ map reminder_for (delivered (queue_script (queue w)) batch) /\
    logs w'
      = logs w ++ [found_log (length batch)]
        ++ enqueue_failure_logs (queue_script (queue w)) batch
        ++ [summary_log (length (delivered (queue_script (queue w)) batch))
                        (length batch)] /\
    (length (delivered (queue_script (queue w)) batch)
     + length (enqueue_failure_logs (queue_script (queue w)) batch)
     = length batch)%nat.
Proof.
  intros Hf.
  set (batch := take (Z.to_nat (Cron.BatchSize cfg))
                  (List.filter (Repository.due_within (clock w) (Cron.ReminderHours cfg))
                               (todos (db w)))).
  destruct (selection_bounded (Z.to_nat (Cron.BatchSize cfg)) (clock w)
              (Cron.ReminderHours cfg) (todos (db w))) as (Hlen & Hin & Hdue).
  fold batch in Hlen, Hin, Hdue.
  pose proof (GetTodosDueInHours_run (Cron.ReminderHours cfg) (Cron.BatchSize cfg) w Hf)
    as Hsel.
  fold batch in Hsel.
  set (w1 := snd (log_event "info"
                    [("todo_count"%string, LInt (Z.of_nat (length batch)))]
                    "Found todos due soon"
                    (snd (db_begin (SQuery "GetTodosDueInHours"
                                      [SqlInt (Cron.ReminderHours cfg);
                                       SqlInt (Cron.BatchSize cfg)]) w)))).
  destruct (Run_loop_spec batch Hdue ∅ 0 w1)
    as (ut' & w2 & Hloop & Hdb & Htasks & Hqlog & Hlogs).
  exists batch. eexists.
  split; [rewrite Hsel; reflexivity|]. split; [exact Hlen|]. split; [exact Hin|].
  split.
  { unfold Cron.Run. unfold bind at 1. rewrite Hsel. cbv iota.
    unfold bind at 1. unfold log_event at 1.
    unfold bind at 1. fold w1 in Hloop. unfold w1, log_event in Hloop.
    cbn [snd] in Hloop. rewrite Hloop.
    unfold bind, log_event, ret. cbn [snd fst]. reflexivity. }
  cbn [queue with_logs logs].
  split; [exact Hqlog|]. split; [exact Htasks|].
  split; [|apply delivered_or_logged].
  rewrite Hlogs. unfold w1. cbn [logs with_logs log_event snd db_begin with_db].
  unfold summary_log, found_log. rewrite Z.add_0_l, <- !app_assoc. reflexivity.
Qed.

End ReminderJob.

(** Three tasks due within the day and a queue that refuses the second
    reminder: the run returns no error, three reminders were handed over,
    the first and the third are queued. *)
Lemma Run_partial_success_witness :
  next_fault Sample.reminder_world = NoFault /\
  exists w',
    Cron.Run Cron.DefaultCronConfig Sample.reminder_world = (Done None, w') /\
    queue_log (queue w')
      = map reminder_for [Sample.root_task; Sample.subtask; Sample.foreign_task] /\
    tasks (queue w')
      = map reminder_for [Sample.root_task; Sample.foreign_task] /\
    length (logs w') = 3%nat.
Proof.
  split; [reflexivity|].
  destruct (Run_partial_success Cron.DefaultCronConfig Sample.reminder_world eq_refl)
    as (batch & w' & Hsel & _ & _ & Hrun & Hqlog & Htasks & Hlogs & _).
  assert (Hbatch : batch = [Sample.root_task; Sample.subtask; Sample.foreign_task]).
  { vm_compute in Hsel. injection Hsel as <-. reflexivity. }
  subst batch. exists w'.
  split; [exact Hrun|]. split; [exact Hqlog|]. split; [exact Htasks|].
  rewrite Hlogs. reflexivity.
Defined.

(* ===================================================================== *)
(** * Attachments: the upload and its rollback *)
(* ===================================================================== *)

(** C10, as stated, fails when the object store fails the delete: the
    task is found, the upload succeeds, the insert is refused, the delete
    is called and fails, the error of the insert is returned, and the
    uploaded object is still in the bucket, which was empty before. *)
Lemma UploadTodoAttachment_leaves_object_when_delete_fails :
  fst (Service.UploadTodoAttachment "user_1" 1%N Sample.receipt Sample.stuck_world)
    = Done (inl (Sqlerr.HandleSQLError Sample.foreign_key_violation)) /\
  s3_log (s3 (snd (Service.UploadTodoAttachment "user_1" 1%N Sample.receipt
                     Sample.stuck_world)))
    = [S3Put Sample.receipt_key; S3Delete Sample.receipt_key] /\
  attachments (db (snd (Service.UploadTodoAttachment "user_1" 1%N Sample.receipt
                          Sample.stuck_world))) = [] /\
  objects (s3 Sample.stuck_world) !! Sample.receipt_key = None /\
  objects (s3 (snd (Service.UploadTodoAttachment "user_1" 1%N Sample.receipt
                      Sample.stuck_world))) !! Sample.receipt_key
    = Some {| Body := [Byte.x25; Byte.x50; Byte.x44];
              ContentType := "application/pdf" |}.
Proof. vm_compute. repeat split; reflexivity. Qed.

(** C10, amended. When the task is found, the file opens, the object store
    takes the upload and the store refuses the insert of the attachment,
    [UploadTodoAttachment] returns the error of the insert, having called
    the object store twice: the upload, then the delete of the key it just
    uploaded. No attachment row is added. The outcome of the delete is not
    looked at: when the object store carries it out, the bucket holds
    nothing it did not hold before the call. *)
Theorem UploadTodoAttachment_rolls_back_upload
    (userID : string) (todoID : UUID) (file : Service.FileHeader)
    (src : list Byte.byte) (found : Todo) (cause : error) (w w1 : World) :
  Repository.CheckTodoExists userID todoID w = (Done (inr found), w1) ->
  Service.Open file = Some src ->
  hd None (s3_script (s3 w)) = None ->
  next_fault w1 = QueryFault cause \/ next_fault w1 = RowsFault cause ->
  let key := attachment_key userID todoID (uuid_source w (uuid_next w)) in
  exists w',
    Service.UploadTodoAttachment userID todoID file w
      = (Done (inl (Sqlerr.HandleSQLError cause)), w') /\
    s3_log (s3 w') = s3_log (s3 w) ++ [S3Put key; S3Delete key] /\
    attachments (db w') = attachments (db w) /\
    (hd None (tl (s3_script (s3 w))) = None ->
       objects (s3 w') = delete key (objects (s3 w)) /\
       objects (s3 w') ⊆ objects (s3 w)).
Proof.
  intros Hcheck Hopen Hup Hins key.
  pose proof (CheckTodoExists_world userID todoID w) as Hw.
  rewrite Hcheck in Hw. cbn [snd] in Hw. subst w1.
  unfold Service.UploadTodoAttachment.
  unfold bind at 1. rewrite Hcheck, Hopen.
  unfold bind at 1. unfold uuid_New at 1.
  cbn [db_begin snd with_db uuid_source uuid_next].
  fold (attachment_key userID todoID (uuid_source w (uuid_next w))). fold key.
  unfold bind at 1. unfold AWS.UploadFile, s3_begin, bind at 1.
  cbn [s3 with_uuid_next with_db s3_script]. rewrite Hup.
  unfold bind, s3_get, s3_set_objects, ret. cbn [s3 with_s3 objects s3_script s3_log].
  unfold Repository.UploadTodoAttachment, bind, db_begin.
  cbn [db with_s3 with_uuid_next with_db db_script].
  unfold next_fault in Hins. cbn [db_begin snd with_db db db_script] in Hins.
  unfold AWS.DeleteFile, s3_begin, bind, s3_get, s3_set_objects, fail, ret.
  destruct Hins as [Hins|Hins]; rewrite Hins;
    cbn [s3 with_s3 with_db objects s3_script s3_log tl];
    (destruct (hd None (tl (s3_script (s3 w)))) as [e|] eqn:Hdel;
     eexists; (split; [reflexivity|]);
     cbn [s3 db with_s3 with_db objects s3_log attachments];
     (split; [rewrite <- app_assoc; reflexivity|]);
     (split; [reflexivity|]);
     [discriminate|]);
    intros _; rewrite delete_insert_eq;
    (split; [reflexivity|apply delete_subseteq]).
Qed.

(** The refused insert with an object store that takes the delete: the
    bucket, empty before, is empty after. *)
Lemma UploadTodoAttachment_rolls_back_upload_witness :
  fst (Repository.CheckTodoExists "user_1" 1%N Sample.rollback_world)
    = Done (inr Sample.root_task) /\
  hd None (s3_script (s3 Sample.rollback_world)) = None /\
  exists w',
    Service.UploadTodoAttachment "user_1" 1%N Sample.receipt Sample.rollback_world
      = (Done (inl (Sqlerr.HandleSQLError Sample.foreign_key_violation)), w') /\
    s3_log (s3 w') = [S3Put Sample.receipt_key; S3Delete Sample.receipt_key] /\
    objects (s3 w') = ∅.
Proof.
  split; [reflexivity|]. split; [reflexivity|].
  destruct (UploadTodoAttachment_rolls_back_upload
              "user_1" 1%N Sample.receipt [Byte.x25; Byte.x50; Byte.x44]
              Sample.root_task Sample.foreign_key_violation Sample.rollback_world
              (snd (Repository.CheckTodoExists "user_1" 1%N Sample.rollback_world))
              eq_refl eq_refl eq_refl (or_introl eq_refl))
    as (w' & Hrun & Hlog & _ & Hobj).
  exists w'. split; [exact Hrun|]. split; [exact Hlog|].
  destruct (Hobj eq_refl) as [Hdel _]. rewrite Hdel. apply delete_empty.
Defined.

(** When the store takes the insert, the attachment is returned and the
    object stays under its key. *)
Example UploadTodoAttachment_stores :
  exists a w',
    Service.UploadTodoAttachment "user_1" 1%N Sample.receipt Sample.family_world
      = (Done (inr a), w') /\
    AttachmentModel.DownloadKey a = Sample.receipt_key /\
    attachments (db w') = [a] /\
    s3_log (s3 w') = [S3Put Sample.receipt_key] /\
    is_Some (objects (s3 w') !! Sample.receipt_key).
Proof. eexists _, _. vm_compute. repeat split. eexists. reflexivity. Qed.

(* ===================================================================== *)
(** * Further properties of the code *)
(* ===================================================================== *)

(** The lookup of a category sends one statement and changes nothing else. *)
Lemma GetCategoryByID_world userID categoryID w :
  snd (Repository.GetCategoryByID userID categoryID w)
  = snd (db_begin (SQuery "GetCategoryByID" [SqlUuid categoryID; SqlText userID]) w).
Proof.
  unfold Repository.GetCategoryByID, bind.
  destruct (db_begin _ w) as [[f|msg] w1] eqn:Hb; [|reflexivity].
  destruct f; try reflexivity. simpl.
  destruct (filter _ _); reflexivity.
Qed.

(* ===================================================================== *)
(** * More on store errors *)
(* ===================================================================== *)

(** X1. [HandleSQLError] sees through any number of wrappings: an error
    under a stack of context messages is mapped as the error itself. *)
Theorem HandleSQLError_sees_through_wrapping (contexts : list string) (err : error) :
  Sqlerr.HandleSQLError (wrap_all contexts err) = Sqlerr.HandleSQLError err.
Proof.
  induction contexts as [|c contexts IH]; [reflexivity|].
  rewrite <- IH. reflexivity.
Qed.

(** X2. [HandleSQLError] does not keep a domain error it is given: an
    [*errs.HTTPError], wrapped or not, comes out as Internal Server Error;
    so does whatever [HandleSQLError] itself returned, and so the mapping a
    second time loses every BadRequest and NotFound. *)
Theorem HandleSQLError_drops_domain_errors
    (contexts : list string) (h : Errs.HTTPError) (err : error) :
  Sqlerr.HandleSQLError (wrap_all contexts (EHTTP h))
    = EHTTP Errs.NewInternalServerError /\
  Sqlerr.HandleSQLError (Sqlerr.HandleSQLError err)
    = EHTTP Errs.NewInternalServerError.
Proof.
  split.
  - induction contexts as [|c contexts IH]; [reflexivity|].
    rewrite <- IH. reflexivity.
  - unfold Sqlerr.HandleSQLError at 2.
    destruct (errors_As_PgError err) as [[code msg]|].
    + destruct (bool_decide (code = "23505"%string)); [reflexivity|].
      destruct (bool_decide (code = "23503"%string)); [reflexivity|].
      destruct (bool_decide (code = "23502"%string)); [reflexivity|].
      destruct (errors_Is_ErrNoRows err); reflexivity.
    + destruct (errors_Is_ErrNoRows err); reflexivity.
Qed.

(* ===================================================================== *)
(** * More on the data-access create *)
(* ===================================================================== *)

(** X3. A record the create returns carries the principal it was called
    for and the title, description, due timestamp, parent, category and
    metadata of the command, unchanged. *)
Theorem CreateTodo_copies_command
    (userID : string) (payload : CreateTodoPayload) (w : World) (t : Todo) :
  fst (Repository.CreateTodo userID payload w) = Done (inr t) ->
  UserID t = userID /\
  Title t = pTitle payload /\
  Description t = pDescription payload /\
  DueDate t = pDueDate payload /\
  ParentTodoID t = pParentTodoID payload /\
  CategoryID t = pCategoryID payload /\
  Metadata_ t = pMetadata payload.
Proof.
  rewrite CreateTodo_run. destruct (next_fault w); simpl; try discriminate.
  intros [= <-]. repeat split.
Qed.

(** The command of the scenario, copied. *)
Lemma CreateTodo_copies_command_witness :
  exists t,
    fst (Repository.CreateTodo "user_1" Sample.buy_milk Sample.fresh_world)
      = Done (inr t) /\
    UserID t = "user_1"%string /\ Title t = "Buy milk"%string /\
    DueDate t = None.
Proof.
  eexists. split; [reflexivity|].
  destruct (CreateTodo_copies_command "user_1" Sample.buy_milk Sample.fresh_world
              _ eq_refl) as (Hu & Ht & _ & Hd & _ & _ & _).
  repeat split; assumption.
Defined.

(** X4. The create keeps identifiers unique: where they are unique and the
    identifier the store generates next is not in the table, they are
    unique after the call, whether the insert was taken or refused. *)
Theorem CreateTodo_keeps_ids_unique
    (userID : string) (payload : CreateTodoPayload) (w : World) :
  NoDup (map ID (todos (db w))) ->
  next_id w ∉ map ID (todos (db w)) ->
  NoDup (map ID (todos (db (snd (Repository.CreateTodo userID payload w))))).
Proof.
  intros Hnd Hfresh. rewrite CreateTodo_run.
  destruct (next_fault w); simpl; try exact Hnd.
  rewrite map_app. simpl. apply NoDup_app. split; [exact Hnd|].
  split; [|apply NoDup_singleton].
  intros x Hx Hx'. apply list_elem_of_singleton in Hx'. subst x. exact (Hfresh Hx).
Qed.

(** A create into the table of three tasks. *)
Lemma CreateTodo_keeps_ids_unique_witness :
  NoDup (map ID (todos (db Sample.family_world))) /\
  (next_id Sample.family_world ∉ map ID (todos (db Sample.family_world))) /\
  NoDup (map ID (todos (db (snd (Repository.CreateTodo "user_1" Sample.buy_milk
                                   Sample.family_world))))).
Proof.
  assert (Hnd : NoDup (map ID (todos (db Sample.family_world)))) by unique_ids.
  assert (Hfresh : next_id Sample.family_world
                   ∉ map ID (todos (db Sample.family_world))).
  { apply (bool_decide_unpack _). vm_compute. exact I. }
  split; [exact Hnd|]. split; [exact Hfresh|].
  exact (CreateTodo_keeps_ids_unique "user_1" Sample.buy_milk Sample.family_world
           Hnd Hfresh).
Defined.


(* ===================================================================== *)
(** * More on the service's create *)
(* ===================================================================== *)

(** The two lookups return, and all they do to the world is to send their
    statement. *)
Lemma CheckTodoExists_returns userID todoID w :
  exists r,
    Repository.CheckTodoExists userID todoID w
    = (Done r, snd (db_begin (SQuery "CheckTodoExists"
                                [SqlUuid todoID; SqlText userID]) w)).
Proof.
  unfold Repository.CheckTodoExists, bind, db_begin. simpl.
  destruct (hd NoFault (db_script (db w))); try (eexists; reflexivity).
  unfold db_get, fail, ok, ret. simpl.
  destruct (filter _ _); eexists; reflexivity.
Qed.

Lemma GetCategoryByID_returns userID categoryID w :
  exists r,
    Repository.GetCategoryByID userID categoryID w
    = (Done r, snd (db_begin (SQuery "GetCategoryByID"
                                [SqlUuid categoryID; SqlText userID]) w)).
Proof.
  unfold Repository.GetCategoryByID, bind, db_begin. simpl.
  destruct (hd NoFault (db_script (db w))); try (eexists; reflexivity).
  unfold db_get, fail, ok, ret. simpl.
  destruct (filter _ _); eexists; reflexivity.
Qed.

(** The data-access create returns; it touches neither the log, the object
    store nor the queue, and the table grows by the returned record, which
    is the caller's, or stays as it is. *)
Lemma CreateTodo_returns userID payload w :
  exists r w',
    Repository.CreateTodo userID payload w = (Done r, w') /\
    logs w' = logs w /\ s3 w' = s3 w /\ queue w' = queue w /\
    match r with
    | inr t => todos (db w') = todos (db w) ++ [t] /\ UserID t = userID
    | inl _ => todos (db w') = todos (db w)
    end.
Proof.
  rewrite CreateTodo_run.
  destruct (next_fault w); eexists _, _; (split; [reflexivity|]); repeat split.
Qed.

(** X6. When the lookup of the parent fails, the service's create returns
    the error of the lookup as it is, logs it once, and stops: the category
    is not looked up and no insert is sent. *)
Theorem CreateTodo_parent_error_passes
    (userID : string) (payload : CreateTodoPayload) (parentID : UUID)
    (err : error) (w w1 : World) :
  pParentTodoID payload = Some parentID ->
  Repository.CheckTodoExists userID parentID w = (Done (inl err), w1) ->
  exists w',
    Service.CreateTodo userID payload w = (Done (inl err), w') /\
    db w' = db w1 /\
    db_log (db w')
      = db_log (db w) ++ [SQuery "CheckTodoExists" [SqlUuid parentID; SqlText userID]] /\
    logs w'
      = logs w ++ [{| Level := "error"; Fields := [("error"%string, LErr err)];
                      Msg := "parent todo validation failed" |}].
Proof.
  intros Hp Hcheck.
  pose proof (CheckTodoExists_world userID parentID w) as Hw.
  rewrite Hcheck in Hw. cbn [snd] in Hw.
  eexists. split.
  - unfold Service.CreateTodo. rewrite Hp.
    unfold bind at 1. unfold bind at 1. rewrite Hcheck.
    unfold bind, log_event, fail, ret. cbn. reflexivity.
  - subst w1. repeat split.
Qed.

(** A create under a parent that does not exist. *)
Lemma CreateTodo_parent_error_passes_witness :
  exists err w',
    fst (Repository.CheckTodoExists "user_1" 77%N Sample.family_world)
      = Done (inl err) /\
    Service.CreateTodo "user_1" Fixture.under_ghost Sample.family_world
      = (Done (inl err), w') /\
    todos (db w') = todos (db Sample.family_world) /\
    length (db_log (db w')) = 1%nat.
Proof.
  destruct (CreateTodo_parent_error_passes "user_1" Fixture.under_ghost 77%N
              (EHTTP (Errs.NewNotFoundError "Todo not found" false None))
              Sample.family_world
              (snd (Repository.CheckTodoExists "user_1" 77%N Sample.family_world))
              eq_refl eq_refl) as (w' & Hrun & Hdb & Hlog & _).
  eexists _, w'. split; [reflexivity|]. split; [exact Hrun|].
  split; [rewrite Hdb; reflexivity|rewrite Hlog; reflexivity].
Defined.

(** X7. When the parent is absent or passes and the lookup of the category
    fails, the service's create returns the error of that lookup as it is,
    logs it once, and sends no insert. *)
Theorem CreateTodo_category_error_passes
    (userID : string) (payload : CreateTodoPayload) (categoryID : UUID)
    (err : error) (w w1 w2 : World) :
  (pParentTodoID payload = None /\ w1 = w) \/
  (exists parentID parent,
     pParentTodoID payload = Some parentID /\
     Repository.CheckTodoExists userID parentID w = (Done (inr parent), w1) /\
     ParentTodoID parent = None) ->
  pCategoryID payload = Some categoryID ->
  Repository.GetCategoryByID userID categoryID w1 = (Done (inl err), w2) ->
  exists w',
    Service.CreateTodo userID payload w = (Done (inl err), w') /\
    db w' = db w2 /\
    todos (db w') = todos (db w) /\
    logs w'
      = logs w ++ [{| Level := "error"; Fields := [("error"%string, LErr err)];
                      Msg := "category validation failed" |}].
Proof.
  intros Hparent Hc Hcat.
  pose proof (GetCategoryByID_world userID categoryID w1) as Hw2.
  rewrite Hcat in Hw2. cbn [snd] in Hw2.
  destruct Hparent as [[Hp ->]|(parentID & parent & Hp & Hcheck & Hroot)].
  - eexists. split.
    + unfold Service.CreateTodo. rewrite Hp, Hc.
      unfold bind at 1. unfold ok at 1, ret at 1.
      unfold bind at 1. unfold bind at 1. rewrite Hcat.
      unfold bind, log_event, fail, ret. cbn. reflexivity.
    + subst w2. repeat split.
  - pose proof (CheckTodoExists_world userID parentID w) as Hw1.
    rewrite Hcheck in Hw1. cbn [snd] in Hw1.
    assert (Hcan : CanHaveChildren parent = true).
    { unfold CanHaveChildren. rewrite Hroot. reflexivity. }
    eexists. split.
    + unfold Service.CreateTodo. rewrite Hp, Hc.
      unfold bind at 1. unfold bind at 1. rewrite Hcheck, Hcan.
      unfold ok at 1, ret at 1. cbn [negb].
      unfold bind at 1. unfold bind at 1. rewrite Hcat.
      unfold bind, log_event, fail, ret. cbn. reflexivity.
    + subst w2 w1. repeat split.
Qed.

(** A create under the first task, in a category that does not exist. *)
Lemma CreateTodo_category_error_passes_witness :
  exists err w',
    Service.CreateTodo "user_1" Fixture.with_references Sample.family_world
      = (Done (inl err), w') /\
    err = EHTTP (Errs.NewNotFoundError "Category not found" false None) /\
    todos (db w') = todos (db Sample.family_world) /\
    length (db_log (db w')) = 2%nat.
Proof.
  assert (Hparent :
    (pParentTodoID Fixture.with_references = None /\
     snd (Repository.CheckTodoExists "user_1" 1%N Sample.family_world)
     = Sample.family_world) \/
    (exists parentID parent,
       pParentTodoID Fixture.with_references = Some parentID /\
       Repository.CheckTodoExists "user_1" parentID Sample.family_world
       = (Done (inr parent),
          snd (Repository.CheckTodoExists "user_1" 1%N Sample.family_world)) /\
       ParentTodoID parent = None)).
  { right. exists 1%N, Sample.root_task. repeat split. }
  destruct (CreateTodo_category_error_passes "user_1" Fixture.with_references 9%N
              (EHTTP (Errs.NewNotFoundError "Category not found" false None))
              Sample.family_world _ _ Hparent eq_refl eq_refl)
    as (w' & Hrun & Hdb & Htodos & _).
  eexists _, w'. split; [exact Hrun|]. split; [reflexivity|].
  split; [exact Htodos|]. rewrite Hdb. reflexivity.
Defined.

(** The last step of a path through the service's create: one event is
    logged, on top of what is known of the world so far. *)
Ltac logged_once :=
  unfold bind, log_event, fail, ok, ret; cbn;
  eexists _, _, _; (split; [reflexivity|]); cbn;
  repeat match goal with H : _ = _ |- _ => rewrite H end;
  repeat split;
  first [assumption | left; reflexivity | right; reflexivity].

Ltac created_or_not userID payload w :=
  let r := fresh "r" in
  let w3 := fresh "w" in
  let Hl := fresh "Hl" in
  let Hs := fresh "Hs" in
  let Hq := fresh "Hq" in
  let Ht := fresh "Ht" in
  let Hu := fresh "Hu" in
  destruct (CreateTodo_returns userID payload w)
    as (r & w3 & -> & Hl & Hs & Hq & Ht);
  destruct r; [|destruct Ht as [Ht Hu]]; logged_once.

(** The service's create, whatever the command and the world: it returns,
    with one more event in the log. *)
Lemma Service_CreateTodo_returns
    (userID : string) (payload : CreateTodoPayload) (w : World) :
  exists r w' event,
    Service.CreateTodo userID payload w = (Done r, w') /\
    logs w' = logs w ++ [event] /\
    s3 w' = s3 w /\ queue w' = queue w /\
    match r with
    | inr t =>
        event = created_event t /\ todos (db w') = todos (db w) ++ [t] /\
        UserID t = userID
    | inl _ =>
        (Level event = "error"%string \/ Level event = "warn"%string) /\
        todos (db w') = todos (db w)
    end.
Proof.
  unfold Service.CreateTodo.
  destruct (pParentTodoID payload) as [parentID|].
  - unfold bind at 1. unfold bind at 1.
    destruct (CheckTodoExists_returns userID parentID w) as (rp & ->).
    destruct rp as [err|parent]; [logged_once|].
    destruct (CanHaveChildren parent); cbn [negb]; [|logged_once].
    unfold ok at 1, ret at 1.
    destruct (pCategoryID payload) as [categoryID|].
    + unfold bind at 1. unfold bind at 1.
      match goal with |- context [Repository.GetCategoryByID _ _ ?w1] =>
        destruct (GetCategoryByID_returns userID categoryID w1) as (rc & ->)
      end.
      destruct rc as [err|c]; [logged_once|].
      unfold ok at 1, ret at 1. unfold bind at 1.
      match goal with |- context [Repository.CreateTodo _ _ ?w2] =>
        created_or_not userID payload w2
      end.
    + unfold bind at 1. unfold ok at 1, ret at 1. unfold bind at 1.
      match goal with |- context [Repository.CreateTodo _ _ ?w2] =>
        created_or_not userID payload w2
      end.
  - unfold bind at 1. unfold ok at 1, ret at 1.
    destruct (pCategoryID payload) as [categoryID|].
    + unfold bind at 1. unfold bind at 1.
      destruct (GetCategoryByID_returns userID categoryID w) as (rc & ->).
      destruct rc as [err|c]; [logged_once|].
      unfold ok at 1, ret at 1. unfold bind at 1.
      match goal with |- context [Repository.CreateTodo _ _ ?w2] =>
        created_or_not userID payload w2
      end.
    + unfold bind at 1. unfold ok at 1, ret at 1. unfold bind at 1.
      created_or_not userID payload w.
Qed.

(** X8. Every call of the service's create returns, adds exactly one event
    to the log, and leaves the object store and the queue alone. When it
    succeeds the event is the "todo_created" event of the returned record
    and the table has grown by that record; when it fails the event is an
    error or a warning and the table is as it was. *)
Theorem CreateTodo_one_event_per_call
    (userID : string) (payload : CreateTodoPayload) (w : World) :
  exists r w' event,
    Service.CreateTodo userID payload w = (Done r, w') /\
    logs w' = logs w ++ [event] /\
    s3 w' = s3 w /\ queue w' = queue w /\
    match r with
    | inr t => event = created_event t /\ todos (db w') = todos (db w) ++ [t]
    | inl _ =>
        (Level event = "error"%string \/ Level event = "warn"%string) /\
        todos (db w') = todos (db w)
    end.
Proof.
  destruct (Service_CreateTodo_returns userID payload w)
    as (r & w' & event & Hrun & Hlog & Hs3 & Hq & Hr).
  exists r, w', event. repeat (split; [assumption|]).
  destruct r as [err|t]; [exact Hr|].
  destruct Hr as (He & Ht & _). split; assumption.
Qed.

(* ===================================================================== *)
(** * The authenticated route *)
(* ===================================================================== *)



(** The scenario's command on a verified session of user_1, sent with a
    context that holds user_2: the record is user_1's. *)
Example RequireAuth_overrides_stale_principal :
  exists t w',
    Middleware.RequireAuth
      (Middleware.TodoHandler_CreateTodo Sample.validate (Some Sample.buy_milk))
      (Middleware.Verified Fixture.claims) Fixture.stale_context Sample.fresh_world
    = (Done (inr (Middleware.Handled (Http.StatusCreated, t))), w') /\
    UserID t = "user_1"%string /\
    Middleware.GetUserID Fixture.stale_context = "user_2"%string.
Proof.
  eexists _, _. split; [vm_compute; reflexivity|]. split; reflexivity.
Qed.

(** X10. A context that holds no string under "user_id" (the route was
    mounted without the middleware) is no obstacle to the handler: the
    principal reads as the empty string, and a valid command without
    references is created, with 201, as a record of that empty principal. *)
Theorem CreateTodo_without_principal
    (validate : CreateTodoPayload -> bool) (payload : CreateTodoPayload)
    (c : gmap string Middleware.Any) (w : World) :
  (forall userID, c !! "user_id" <> Some (Middleware.AString userID)) ->
  validate payload = true ->
  pParentTodoID payload = None ->
  pCategoryID payload = None ->
  next_fault w = NoFault ->
  exists t w',
    Middleware.TodoHandler_CreateTodo validate (Some payload) c w
    = (Done (inr (Http.StatusCreated, t)), w') /\
    UserID t = EmptyString /\
    todos (db w') = todos (db w) ++ [t].
Proof.
  intros Hc Hv Hpa Hca Hf.
  assert (Hid : Middleware.GetUserID c = EmptyString).
  { unfold Middleware.GetUserID.
    destruct (c !! "user_id") as [[userID|l]|] eqn:Hl; try reflexivity.
    exfalso. exact (Hc userID eq_refl). }
  unfold Middleware.TodoHandler_CreateTodo. rewrite Hid.
  unfold Handler.CreateTodo, Handler.Handle. rewrite Hv. cbn [negb].
  destruct (Service_CreateTodo_plain EmptyString payload w Hpa Hca Hf)
    as (w' & Hrun & Hdb).
  unfold bind at 1. rewrite Hrun.
  eexists _, _. split; [reflexivity|]. split; [reflexivity|].
  cbn. rewrite Hdb, CreateTodo_run, Hf. reflexivity.
Qed.

(** The scenario's command on a context that only holds a role. *)
Lemma CreateTodo_without_principal_witness :
  exists t w',
    Middleware.TodoHandler_CreateTodo Sample.validate (Some Sample.buy_milk)
      Fixture.role_only Sample.fresh_world
    = (Done (inr (Http.StatusCreated, t)), w') /\
    UserID t = EmptyString /\
    todos (db w') = todos (db Sample.fresh_world) ++ [t].
Proof.
  apply (CreateTodo_without_principal Sample.validate Sample.buy_milk
           Fixture.role_only Sample.fresh_world).
  - intros userID. vm_compute. discriminate.
  - reflexivity.
  - reflexivity.
  - reflexivity.
  - reflexivity.
Defined.

(* ===================================================================== *)
(** * More on the reminder job *)
(* ===================================================================== *)

(** Two runs of the loop over the same records, from the same count and
    world, under any two configurations and groupings: same world after,
    same count, or the same panic. *)
Lemma Run_loop_grouping_unused (cfg cfg' : Cron.CronConfig) (batch : list Todo) :
  forall userTodos userTodos' enqueuedCount w,
    snd (Cron.Run_loop cfg batch userTodos enqueuedCount w)
    = snd (Cron.Run_loop cfg' batch userTodos' enqueuedCount w) /\
    match fst (Cron.Run_loop cfg batch userTodos enqueuedCount w),
          fst (Cron.Run_loop cfg' batch userTodos' enqueuedCount w) with
    | Done st, Done st' => snd st = snd st'
    | Panicked msg, Panicked msg' => msg = msg'
    | _, _ => False
    end.
Proof.
  induction batch as [|t rest IH]; intros userTodos userTodos' enqueuedCount w.
  - split; reflexivity.
  - cbn [Cron.Run_loop].
    destruct (DueDate t) as [due|]; [|split; reflexivity].
    unfold bind.
    destruct (Job.EnqueueReminderEmail _ w) as [[[err|]|msg] w1].
    + unfold log_event. cbn beta iota. apply IH.
    + apply IH.
    + split; reflexivity.
Qed.

(** X11. The grouping of titles by user that [Run] builds, and the cap
    [MaxTodosPerUserNotification] it is built under, have no effect: two
    configurations with the same window and batch size give the same
    result, the same queue and the same log. *)
Theorem Run_ignores_grouping (cfg cfg' : Cron.CronConfig) (w : World) :
  Cron.ReminderHours cfg = Cron.ReminderHours cfg' ->
  Cron.BatchSize cfg = Cron.BatchSize cfg' ->
  Cron.Run cfg w = Cron.Run cfg' w.
Proof.
  intros Hh Hb. unfold Cron.Run. rewrite Hh, Hb.
  unfold bind at 1 5.
  destruct (Repository.GetTodosDueInHours _ _ w) as [[[err|batch]|msg] w1];
    try reflexivity.
  unfold bind at 1 4. unfold log_event at 1 3.
  unfold bind at 1 3.
  match goal with |- context [Cron.Run_loop cfg batch ∅ 0 ?w2] =>
    destruct (Run_loop_grouping_unused cfg cfg' batch ∅ ∅ 0 w2) as [Hw Hr];
    destruct (Cron.Run_loop cfg batch ∅ 0 w2) as [[st|msg] w3];
    destruct (Cron.Run_loop cfg' batch ∅ 0 w2) as [[st'|msg'] w3']
  end; cbn [fst snd] in *; try contradiction; subst.
  - unfold bind, log_event, ret. rewrite Hr. reflexivity.
  - reflexivity.
Qed.

(** The default configuration and one that lists no title at all. *)
Lemma Run_ignores_grouping_witness :
  Cron.Run Cron.DefaultCronConfig Sample.reminder_world
  = Cron.Run Fixture.terse_config Sample.reminder_world.
Proof.
  apply (Run_ignores_grouping Cron.DefaultCronConfig Fixture.terse_config
           Sample.reminder_world); reflexivity.
Defined.

(** The loop over two stretches of records is the loop over the first,
    then the loop over the second from where the first left off. *)
Lemma Run_loop_app (cfg : Cron.CronConfig) (before after : list Todo) :
  forall userTodos enqueuedCount w,
    Cron.Run_loop cfg (before ++ after) userTodos enqueuedCount w
    = bind (Cron.Run_loop cfg before userTodos enqueuedCount)
           (fun st => Cron.Run_loop cfg after (fst st) (snd st)) w.
Proof.
  induction before as [|t rest IH]; intros userTodos enqueuedCount w.
  - reflexivity.
  - cbn [app Cron.Run_loop].
    destruct (DueDate t) as [due|]; [|reflexivity].
    unfold bind.
    destruct (Job.EnqueueReminderEmail _ w) as [[[err|]|msg] w1].
    + unfold log_event. cbn beta iota. rewrite IH. reflexivity.
    + rewrite IH. reflexivity.
    + reflexivity.
Qed.

(** X12. The loop of [Run] dereferences the due timestamp of every record
    without a nil check. On a batch that holds a record without one it
    panics at that record: the reminders of the records before it have been
    handed to the queue and stay queued, nothing is handed over for the
    records after it, and the summary is never logged. *)
Theorem Run_loop_panics_without_due_date (cfg : Cron.CronConfig)
    (before after : list Todo) (t : Todo)
    (userTodos : gmap string (list string)) (enqueuedCount : Z) (w : World) :
  Forall (fun t => DueDate t <> None) before ->
  DueDate t = None ->
  exists w',
    Cron.Run_loop cfg (before ++ t :: after) userTodos enqueuedCount w
    = (Panicked "invalid memory address or nil pointer dereference", w') /\
    queue_log (queue w') = queue_log (queue w) ++ map reminder_for before /\
    tasks (queue w')
    = tasks (queue w) ++ map reminder_for (delivered (queue_script (queue w)) before) /\
    logs w' = logs w ++ enqueue_failure_logs (queue_script (queue w)) before.
Proof.
  intros Hdue Hnil.
  destruct (Run_loop_spec cfg before Hdue userTodos enqueuedCount w)
    as (userTodos' & w' & Hrun & _ & Htasks & Hlog & Hlogs).
  exists w'. split.
  - rewrite Run_loop_app. unfold bind. rewrite Hrun.
    cbn [Cron.Run_loop fst snd]. rewrite Hnil. reflexivity.
  - split; [exact Hlog|]. split; [exact Htasks|exact Hlogs].
Qed.

(** Two dated tasks around an undated one, on a queue that takes all. *)
Lemma Run_loop_panics_without_due_date_witness :
  exists w',
    Cron.Run_loop Cron.DefaultCronConfig
      ([Sample.root_task] ++ Fixture.undated :: [Sample.subtask]) ∅ 0
      Sample.family_world
    = (Panicked "invalid memory address or nil pointer dereference", w') /\
    queue_log (queue w') = [reminder_for Sample.root_task] /\
    tasks (queue w') = [reminder_for Sample.root_task] /\
    logs w' = [].
Proof.
  apply (Run_loop_panics_without_due_date Cron.DefaultCronConfig
           [Sample.root_task] [Sample.subtask] Fixture.undated ∅ 0
           Sample.family_world).
  - repeat constructor. discriminate.
  - reflexivity.
Defined.

(* ===================================================================== *)
(** * More on the upload of an attachment *)
(* ===================================================================== *)

(** X13. Whatever error the lookup of the task comes back with (a task
    that is not there, or a store that is down), the upload answers 404
    "Todo not found"; a file that cannot be opened is answered with 400.
    In both cases the object store is not called, no key is generated and
    no attachment is recorded. *)
Theorem UploadTodoAttachment_stops_before_object_store
    (userID : string) (todoID : UUID) (file : Service.FileHeader) (w : World) :
  (exists err, fst (Repository.CheckTodoExists userID todoID w) = Done (inl err))
  \/ Service.Open file = None ->
  exists h w',
    Service.UploadTodoAttachment userID todoID file w = (Done (inl (EHTTP h)), w') /\
    ((exists err, fst (Repository.CheckTodoExists userID todoID w) = Done (inl err)) ->
     h = Repository.NewNotFoundError "Todo not found") /\
    ((exists t, fst (Repository.CheckTodoExists userID todoID w) = Done (inr t)) ->
     h = Errs.NewBadRequestError "Failed to open file" false None [] None) /\
    s3 w' = s3 w /\
    uuid_next w' = uuid_next w /\
    attachments (db w') = attachments (db w).
Proof.
  intros Hstop.
  pose proof (CheckTodoExists_world userID todoID w) as Hw.
  unfold Service.UploadTodoAttachment, bind.
  destruct (Repository.CheckTodoExists userID todoID w) as [[[err|t]|msg] w1] eqn:Hc;
    cbn [fst snd] in *.
  - eexists _, _. split; [reflexivity|]. subst w1.
    split; [reflexivity|].
    split; [intros [t Ht]; discriminate|]. repeat split.
  - destruct Hstop as [[err Herr]|Hopen]; [discriminate|].
    rewrite Hopen. eexists _, _. split; [reflexivity|]. subst w1.
    split; [intros [err Herr]; discriminate|].
    split; [reflexivity|]. repeat split.
  - destruct Hstop as [[err Herr]|Hopen]; [discriminate|].
    destruct (CheckTodoExists_returns userID todoID w) as (r & Hr).
    rewrite Hr in Hc. discriminate.
Qed.

(** An upload for a task of another owner, on a store that is down. *)
Lemma UploadTodoAttachment_stops_before_object_store_witness :
  exists h w',
    Service.UploadTodoAttachment "user_1" 3%N Sample.receipt Fixture.out_world
    = (Done (inl (EHTTP h)), w') /\
    h = Repository.NewNotFoundError "Todo not found" /\
    s3_log (s3 w') = [].
Proof.
  destruct (UploadTodoAttachment_stops_before_object_store "user_1" 3%N
              Sample.receipt Fixture.out_world)
    as (h & w' & Hrun & Hnf & _ & Hs3 & _).
  - left. eexists. reflexivity.
  - exists h, w'. split; [exact Hrun|]. split.
    + apply Hnf. eexists. reflexivity.
    + rewrite Hs3. reflexivity.
Defined.

(** X14. When the task is found, the file opens and the object store
    refuses the upload, the upload of an attachment returns the object
    store's error wrapped in "failed to upload file to S3": the one call
    the object store has seen is the put under the generated key, nothing
    is stored, nothing is deleted, and no attachment statement reaches the
    relational store. *)
Theorem UploadTodoAttachment_upload_refused
    (userID : string) (todoID : UUID) (file : Service.FileHeader)
    (src : list Byte.byte) (cause : error) (t : Todo) (w w1 : World) :
  Repository.CheckTodoExists userID todoID w = (Done (inr t), w1) ->
  Service.Open file = Some src ->
  hd None (s3_script (s3 w)) = Some cause ->
  exists w',
    Service.UploadTodoAttachment userID todoID file w
    = (Done (inl (EWrap "failed to upload file to S3" cause)), w') /\
    s3_log (s3 w')
    = s3_log (s3 w) ++ [S3Put (attachment_key userID todoID (next_id w))] /\
    objects (s3 w') = objects (s3 w) /\
    db w' = db w1 /\
    attachments (db w') = attachments (db w).
Proof.
  intros Hc Hopen Hs3.
  pose proof (CheckTodoExists_world userID todoID w) as Hw.
  rewrite Hc in Hw. cbn [snd] in Hw.
  unfold Service.UploadTodoAttachment.
  unfold bind at 1. rewrite Hc, Hopen.
  unfold bind at 1. unfold uuid_New at 1.
  unfold bind at 1. unfold AWS.UploadFile. unfold bind at 1.
  unfold s3_begin at 1. subst w1. cbn. rewrite Hs3.
  eexists. split; [reflexivity|]. repeat split.
Qed.

(** The first task of the sample, on an object store that denies access. *)
Lemma UploadTodoAttachment_upload_refused_witness :
  exists w',
    Service.UploadTodoAttachment "user_1" 1%N Sample.receipt Fixture.refusing_s3_world
    = (Done (inl (EWrap "failed to upload file to S3" (EOther "s3: access denied"))), w') /\
    s3_log (s3 w') = [S3Put Sample.receipt_key] /\
    objects (s3 w') = ∅ /\
    attachments (db w') = [].
Proof.
  destruct (UploadTodoAttachment_upload_refused "user_1" 1%N Sample.receipt
              [Byte.x25; Byte.x50; Byte.x44] (EOther "s3: access denied")
              Sample.root_task Fixture.refusing_s3_world
              (snd (Repository.CheckTodoExists "user_1" 1%N Fixture.refusing_s3_world))
              eq_refl eq_refl eq_refl)
    as (w' & Hrun & Hlog & Hobj & _ & Hatt).
  exists w'. split; [exact Hrun|].
  split; [rewrite Hlog; reflexivity|].
  split; [rewrite Hobj; reflexivity|rewrite Hatt; reflexivity].
Defined.

(* ===================================================================== *)
(** * The worker's side of a reminder *)
(* ===================================================================== *)

Section ReminderHandler.

Context {authService : Worker.AuthServiceInterface}.
Variable RenderTemplate : string -> gmap string string -> error + string.
Variable Format : Time -> string.

(** X15. The handler of a reminder returns nil exactly when the payload
    decoded, the address of the user was found, the template rendered and
    the send came back with nil. The provider is asked only after those
    three steps went well, and then once: for the email to this one
    address, with the subject "Reminder: " followed by the title and the
    rendered body; what the send returns is what the handler returns. When
    one of the three steps fails the handler returns an error without
    asking the provider and without logging. *)
Theorem handleReminderEmailTask_nil_iff_sent
    (decoded : error + ReminderEmailTask) (m : Worker.Mail) :
  (fst (Worker.handleReminderEmailTask RenderTemplate Format decoded m) = None <->
   exists task address html,
     prepared RenderTemplate Format decoded task address html /\
     fst (Worker.SendEmail (reminder_email address task html) m) = None) /\
  ((exists task address html,
      prepared RenderTemplate Format decoded task address html /\
      fst (Worker.handleReminderEmailTask RenderTemplate Format decoded m)
      = fst (Worker.SendEmail (reminder_email address task html) m) /\
      Worker.send_log (snd (Worker.handleReminderEmailTask RenderTemplate Format
                              decoded m))
      = Worker.send_log m ++ [reminder_email address task html]) \/
   ((forall task address html,
       ~ prepared RenderTemplate Format decoded task address html) /\
    fst (Worker.handleReminderEmailTask RenderTemplate Format decoded m) <> None /\
    snd (Worker.handleReminderEmailTask RenderTemplate Format decoded m) = m)).
Proof.
  unfold Worker.handleReminderEmailTask, prepared.
  destruct decoded as [err|task].
  { split.
    - split; [discriminate|]. intros (task & address & html & (Hd & _) & _).
      discriminate.
    - right. split; [|split; [discriminate|reflexivity]].
      intros task address html (Hd & _). discriminate. }
  destruct (Worker.GetUserEmail (rUserID task)) as [err|address] eqn:Ha.
  { split.
    - split; [discriminate|]. intros (task' & address & html & (Hd & Hu & _) & _).
      injection Hd as <-. rewrite Ha in Hu. discriminate.
    - right. split; [|split; [discriminate|reflexivity]].
      intros task' address html (Hd & Hu & _).
      injection Hd as <-. rewrite Ha in Hu. discriminate. }
  destruct (RenderTemplate "reminder" (Worker.emailData Format task))
    as [err|html] eqn:Hr.
  { split.
    - split; [discriminate|]. intros (task' & address' & html & (Hd & _ & Hh) & _).
      injection Hd as <-. rewrite Hr in Hh. discriminate.
    - right. split; [|split; [discriminate|reflexivity]].
      intros task' address' html (Hd & _ & Hh).
      injection Hd as <-. rewrite Hr in Hh. discriminate. }
  fold (reminder_email address task html).
  assert (Hlog : Worker.send_log (snd (Worker.SendEmail
                                         (reminder_email address task html) m))
                 = Worker.send_log m ++ [reminder_email address task html]).
  { unfold Worker.SendEmail. destruct (hd None (Worker.send_script m)); reflexivity. }
  split.
  - split.
    + intros Hnil. exists task, address, html. split; [repeat split; assumption|].
      destruct (fst (Worker.SendEmail (reminder_email address task html) m));
        [discriminate|reflexivity].
    + intros (task' & address' & html' & (Hd & Hu & Hh) & Hsent).
      injection Hd as <-. rewrite Ha in Hu. injection Hu as <-.
      rewrite Hr in Hh. injection Hh as <-.
      rewrite Hsent. reflexivity.
  - left. exists task, address, html. split; [repeat split; assumption|].
    destruct (fst (Worker.SendEmail (reminder_email address task html) m)) eqn:Hs;
      cbn [fst snd]; (split; [reflexivity|]); unfold Worker.worker_log; cbn;
      exact Hlog.
Qed.

(** X16. From the job to the worker: the queue item [Run] makes for a task
    with a due timestamp, once decoded and handled while the identity
    provider, the template and the delivery provider all answer, gives one
    email to the address of the owner of the task, titled after the task,
    rendered from the title, the formatted due timestamp and the type
    "due_date_reminder"; the handler returns nil and logs the delivery. *)
Theorem reminder_reaches_owner
    (t : Todo) (due : Time) (address html : string) (m : Worker.Mail) :
  DueDate t = Some due ->
  Worker.GetUserEmail (UserID t) = inr address ->
  RenderTemplate "reminder"
    (<["TodoTitle" := Title t]>
       (<["DueDate" := Format due]>
          (<["TaskType" := "due_date_reminder"]> ∅))) = inr html ->
  hd None (Worker.send_script m) = None ->
  exists m',
    Worker.handleReminderEmailTask RenderTemplate Format
      (inr (Payload (reminder_for t))) m = (None, m') /\
    QueueName (reminder_for t) = "critical" /\
    Worker.outbox m'
    = Worker.outbox m
      ++ [{| Worker.To := [address];
             Worker.Subject := ("Reminder: " ++ Title t)%string;
             Worker.HTML := html |}] /\
    Worker.worker_logs m'
    = Worker.worker_logs m
      ++ [{| Level := "info";
             Fields := [("user_id"%string, LStr (UserID t));
                        ("todo_id"%string, LStr (UUID_String (ID t)))];
             Msg := "Reminder email sent successfully" |}].
Proof.
  intros Hdue Haddr Hrender Hsend.
  unfold Worker.handleReminderEmailTask, reminder_for, Job.reminder_item.
  cbn [Payload rUserID rTodoTitle rTodoID].
  rewrite Haddr. unfold Worker.emailData. cbn [rTodoTitle rDueDate rTaskType].
  rewrite Hdue. cbn [from_option id].
  match goal with |- context [RenderTemplate "reminder" ?data] =>
    replace (RenderTemplate "reminder" data) with (@inr error string html)
      by (symmetry; exact Hrender)
  end. unfold Worker.SendEmail. rewrite Hsend. cbn.
  eexists. repeat split.
Qed.

End ReminderHandler.

(** A provider that refuses the email: the error comes back, the send
    was asked for once, and nothing is delivered. *)
Example handleReminderEmailTask_refused :
  exists m',
    @Worker.handleReminderEmailTask Worker.MockAuthService Fixture.render Fixture.date
      (inr Fixture.reminder) (Fixture.mailer [Some (EOther "resend: rate limited")])
    = (Some (EOther "resend: rate limited"), m') /\
    Worker.outbox m' = [] /\
    length (Worker.send_log m') = 1%nat /\
    map Level (Worker.worker_logs m') = ["error"%string].
Proof.
  eexists. split; [vm_compute; reflexivity|]. repeat split.
Qed.

(** A decoded reminder, a mock identity provider and a provider that takes
    the email. *)
Lemma reminder_reaches_owner_witness :
  exists m',
    @Worker.handleReminderEmailTask Worker.MockAuthService Fixture.render Fixture.date
      (inr (Payload (reminder_for Sample.root_task))) (Fixture.mailer [])
    = (None, m') /\
    QueueName (reminder_for Sample.root_task) = "critical" /\
    Worker.outbox m'
    = [{| Worker.To := ["test@example.com"];
          Worker.Subject := "Reminder: Plan trip";
          Worker.HTML := "<h1>Reminder: Plan trip</h1>" |}] /\
    Worker.worker_logs m'
    = [{| Level := "info";
          Fields := [("user_id"%string, LStr "user_1");
                     ("todo_id"%string,
                      LStr "00000000-0000-0000-0000-000000000001")];
          Msg := "Reminder email sent successfully" |}].
Proof.
  exact (@reminder_reaches_owner Worker.MockAuthService Fixture.render Fixture.date
           Sample.root_task 1700003600000000000 "test@example.com"
           "<h1>Reminder: Plan trip</h1>" (Fixture.mailer [])
           eq_refl eq_refl eq_refl eq_refl).
Defined.

(* ===================================================================== *)
(** * The model's two tests of lateness *)
(* ===================================================================== *)

(** X17. The two [IsOverdue] listings of the guide disagree on exactly one
    kind of task: a completed task whose due timestamp has passed, which
    the idiom's version (no test of the status) reports overdue and the
    codebase's version does not. Wherever the codebase's version says
    overdue, the idiom's does. *)
Theorem IsOverdue_listings_differ_on_completed (now : Time) (t : Todo) :
  (Guide.IsOverdue now t <> IsOverdue now t <->
   Status_ t = StatusCompleted /\
   exists due, DueDate t = Some due /\ due < now) /\
  (IsOverdue now t = true -> Guide.IsOverdue now t = true).
Proof.
  unfold Guide.IsOverdue, IsOverdue, Before.
  destruct (DueDate t) as [due|].
  - destruct (Z.ltb_spec due now) as [Hlt|Hge];
      destruct (decide (Status_ t = StatusCompleted)) as [Hc|Hc].
    + rewrite (bool_decide_eq_true_2 _ Hc). cbn. split; [|discriminate].
      split; [intros _; split; [exact Hc|exists due; split; [reflexivity|exact Hlt]]
             |intros _; discriminate].
    + rewrite (bool_decide_eq_false_2 _ Hc). cbn. split; [|reflexivity].
      split; [intros H; contradiction|intros [H _]; contradiction].
    + cbn. split; [|discriminate].
      split; [intros H; contradiction|intros (_ & d & [= <-] & Hd); lia].
    + cbn. split; [|discriminate].
      split; [intros H; contradiction|intros [H _]; contradiction].
  - split; [|discriminate].
    split; [intros H; contradiction|intros (_ & d & Hd & _); discriminate].
Qed.

(** X18. After [MarkComplete] a task is not overdue at any time, whatever
    its due timestamp; the call changes the status and the completion
    timestamp and nothing else, so the task keeps its place in the
    hierarchy; and a second call only moves the completion timestamp. *)
Theorem MarkComplete_ends_lateness (now later : Time) (t : Todo) :
  IsOverdue later (MarkComplete now t) = false /\
  Guide.IsOverdue later (MarkComplete now t) = Guide.IsOverdue later t /\
  CanHaveChildren (MarkComplete now t) = CanHaveChildren t /\
  MarkComplete later (MarkComplete now t) = MarkComplete later t /\
  CompletedAt (MarkComplete now t) = Some now.
Proof.
  split.
  - unfold IsOverdue, MarkComplete. cbn.
    destruct (DueDate t); [apply andb_false_r|reflexivity].
  - repeat split.
Qed.

(* ===================================================================== *)
(** * The guide's create *)
(* ===================================================================== *)

(** What the store makes of the ten bound columns. *)
Lemma guide_created_row id now sort userID payload :
  let row := bind_columns Guide.CreateTodo_stmt
               (Guide.CreateTodo_args userID payload)
               (todos_column_defaults id now sort) in
  RowToStructByName_Todo row = Some (guide_created_todo id now userID payload) /\
  Guide.scan_generated row = Some (id, now, now).
Proof.
  destruct payload as [ti de pr st du pa ca me so]; unfold guide_created_todo; simpl.
  destruct du, pa, ca, me; vm_compute; split; reflexivity.
Qed.

(** The guide's data-access create, run. *)
Lemma Guide_Repository_CreateTodo_run userID payload w :
  let w1 := snd (db_begin (SInsert Guide.CreateTodo_stmt
                             (Guide.CreateTodo_args userID payload)) w) in
  Guide.Repository_CreateTodo userID payload w =
  match next_fault w with
  | NoFault =>
      let t := guide_created_todo (next_id w) (clock w) userID payload in
      (Done (inr t), snd (db_set_todos (todos (db w) ++ [t]) (snd (uuid_New w1))))
  | QueryFault e => (Done (inl e), w1)
  | RowsFault e => (Done (inl e), w1)
  end.
Proof.
  intros w1. unfold Guide.Repository_CreateTodo, Pool_Query_Insert, bind, next_fault.
  unfold db_begin at 1. fold w1. simpl.
  destruct (hd NoFault (db_script (db w))) eqn:Hf; simpl; try reflexivity.
  unfold w1 at 1. simpl.
  destruct (guide_created_row (uuid_source w (uuid_next w)) (clock w)
              (sort_order_default (db w)) userID payload) as [Hrow Hscan].
  cbv zeta in Hrow, Hscan.
  rewrite Hrow. unfold ok, ret, CollectOneRow, db_set_todos, bind. simpl.
  rewrite Hscan. reflexivity.
Qed.

(** What is left of the script, and how long the record of statements is,
    after one or two lookups. *)
Ltac after_lookups :=
  cbn; rewrite ?length_app; cbn;
  first [ lia
        | match goal with
          | |- context [db_script (db ?w)] =>
              destruct (db_script (db w)) as [|? [|? ?]]; reflexivity
          end ].

(** The guide's service create, whatever the command and the world. *)
Lemma Guide_Service_CreateTodo_returns userID payload w :
  exists r w',
    Guide.Service_CreateTodo userID payload w = (Done r, w') /\
    logs w' = logs w /\ s3 w' = s3 w /\ queue w' = queue w /\
    match r with
    | inr t =>
        t = guide_created_todo (next_id w) (clock w) userID (effective payload) /\
        todos (db w') = todos (db w) ++ [t]
    | inl err =>
        todos (db w') = todos (db w) /\
        (err ∈ guide_rejections /\
         (length (db_log (db w'))
          <= length (db_log (db w)) + references payload)%nat
         \/
         (answer_at (references payload) w = QueryFault err \/
          answer_at (references payload) w = RowsFault err) /\
         last (db_log (db w'))
         = Some (SInsert Guide.CreateTodo_stmt
                   (Guide.CreateTodo_args userID (effective payload))))
    end.
Proof.
  assert (Hrepo : forall p k w0,
    logs w0 = logs w -> s3 w0 = s3 w -> queue w0 = queue w ->
    todos (db w0) = todos (db w) -> next_id w0 = next_id w -> clock w0 = clock w ->
    db_script (db w0) = drop k (db_script (db w)) ->
    exists r w',
      bind (Guide.Repository_CreateTodo userID p)
           (fun r => match r with inl err => fail err | inr t => ok t end) w0
      = (Done r, w') /\
      logs w' = logs w /\ s3 w' = s3 w /\ queue w' = queue w /\
      match r with
      | inr t =>
          t = guide_created_todo (next_id w) (clock w) userID p /\
          todos (db w') = todos (db w) ++ [t]
      | inl err =>
          todos (db w') = todos (db w) /\
          (err ∈ guide_rejections /\
           (length (db_log (db w')) <= length (db_log (db w)) + k)%nat
           \/
           (hd NoFault (drop k (db_script (db w))) = QueryFault err \/
            hd NoFault (drop k (db_script (db w))) = RowsFault err) /\
           last (db_log (db w'))
           = Some (SInsert Guide.CreateTodo_stmt (Guide.CreateTodo_args userID p)))
      end).
  { intros p k w0 Hl Hs Hq Ht Hid Hc Hk. unfold bind.
    rewrite Guide_Repository_CreateTodo_run. cbv zeta.
    destruct (next_fault w0) eqn:Hf; unfold next_fault in Hf; rewrite Hk in Hf.
    - eexists _, _. split; [reflexivity|]. cbn.
      rewrite Hl, Hs, Hq, Ht, Hid, Hc. repeat split.
    - eexists _, _. split; [reflexivity|]. cbn.
      rewrite Hl, Hs, Hq, Ht. repeat split. right.
      split; [left; exact Hf|apply last_snoc].
    - eexists _, _. split; [reflexivity|]. cbn.
      rewrite Hl, Hs, Hq, Ht. repeat split. right.
      split; [right; exact Hf|apply last_snoc]. }
  assert (Hrej : forall (err : error) (k : nat) w0,
    err ∈ guide_rejections ->
    logs w0 = logs w -> s3 w0 = s3 w -> queue w0 = queue w ->
    todos (db w0) = todos (db w) ->
    (length (db_log (db w0)) <= length (db_log (db w)) + k)%nat ->
    exists r w',
      (@Done (error + Todo) (inl err), w0) = (Done r, w') /\
      logs w' = logs w /\ s3 w' = s3 w /\ queue w' = queue w /\
      match r with
      | inr t =>
          t = guide_created_todo (next_id w) (clock w) userID (effective payload) /\
          todos (db w') = todos (db w) ++ [t]
      | inl err =>
          todos (db w') = todos (db w) /\
          (err ∈ guide_rejections /\
           (length (db_log (db w')) <= length (db_log (db w)) + k)%nat
           \/
           (hd NoFault (drop k (db_script (db w))) = QueryFault err \/
            hd NoFault (drop k (db_script (db w))) = RowsFault err) /\
           last (db_log (db w'))
           = Some (SInsert Guide.CreateTodo_stmt
                     (Guide.CreateTodo_args userID (effective payload))))
      end).
  { intros err k w0 Hin Hl Hs Hq Ht Hlen. exists (inl err), w0.
    split; [reflexivity|]. repeat split; try assumption. left. split; assumption. }
  unfold Guide.Service_CreateTodo, references, answer_at. fold (effective payload).
  destruct (Guide.gCategoryID payload) as [categoryID|].
  - unfold bind at 1. unfold bind at 1.
    destruct (GetCategoryByID_returns userID categoryID w) as (rc & ->).
    destruct rc as [err|c].
    + destruct (Guide.gParentTodoID payload);
        (apply (Hrej _ _ _);
         [unfold guide_rejections; set_solver|reflexivity..|after_lookups]).
    + unfold ok at 1, ret at 1.
      destruct (Guide.gParentTodoID payload) as [parentID|].
      * unfold bind at 1. unfold bind at 1.
        match goal with |- context [Repository.CheckTodoExists _ _ ?w1] =>
          destruct (CheckTodoExists_returns userID parentID w1) as (rp & ->)
        end.
        destruct rp as [err|parent].
        -- apply (Hrej _ 2%nat);
             [unfold guide_rejections; set_solver|reflexivity..|after_lookups].
        -- destruct (CanHaveChildren parent); cbn [negb].
           ++ unfold ok at 1, ret at 1.
              apply (Hrepo _ 2%nat); [reflexivity..|after_lookups].
           ++ apply (Hrej _ 2%nat);
                [unfold guide_rejections; set_solver|reflexivity..|after_lookups].
      * unfold bind at 1. unfold ok at 1, ret at 1.
        apply (Hrepo _ 1%nat); [reflexivity..|after_lookups].
  - unfold bind at 1. unfold ok at 1, ret at 1.
    destruct (Guide.gParentTodoID payload) as [parentID|].
    + unfold bind at 1. unfold bind at 1.
      destruct (CheckTodoExists_returns userID parentID w) as (rp & ->).
      destruct rp as [err|parent].
      * apply (Hrej _ 1%nat);
          [unfold guide_rejections; set_solver|reflexivity..|after_lookups].
      * destruct (CanHaveChildren parent); cbn [negb].
        -- unfold ok at 1, ret at 1.
           apply (Hrepo _ 1%nat); [reflexivity..|after_lookups].
        -- apply (Hrej _ 1%nat);
             [unfold guide_rejections; set_solver|reflexivity..|after_lookups].
    + unfold bind at 1. unfold ok at 1, ret at 1.
      apply (Hrepo _ 0%nat); [reflexivity..|after_lookups].
Qed.

(** X19. A record the guide's service create returns never has an empty
    status: it is "active" when the command gave none and the status of the
    command otherwise. Unlike the repository of the codebase, the guide's
    create binds the status and the sort order, so the record carries the
    sort order of the command as well, beside its priority and the
    principal; it has no completion timestamp and is the one row the table
    has grown by. *)
Theorem Guide_CreateTodo_defaults_status
    (userID : string) (payload : Guide.CreateTodoPayload) (w w' : World) (t : Todo) :
  Guide.Service_CreateTodo userID payload w = (Done (inr t), w') ->
  Status_ t <> EmptyString /\
  Status_ t = (if bool_decide (Guide.gStatus payload = EmptyString)
               then StatusActive else Guide.gStatus payload) /\
  SortOrder t = Guide.gSortOrder payload /\
  Priority_ t = Guide.gPriority payload /\
  UserID t = userID /\
  CompletedAt t = None /\
  todos (db w') = todos (db w) ++ [t].
Proof.
  intros Hrun.
  destruct (Guide_Service_CreateTodo_returns userID payload w)
    as (r & w0 & Hrun' & _ & _ & _ & Hr).
  rewrite Hrun in Hrun'. injection Hrun' as <- <-.
  destruct Hr as [-> Ht]. unfold effective in *.
  destruct (bool_decide (Guide.gStatus payload = EmptyString)) eqn:Hs; cbn.
  - repeat split; [discriminate|exact Ht].
  - apply bool_decide_eq_false in Hs. repeat split; [exact Hs|exact Ht].
Qed.

(** The guide's scenario command, which names no status. *)
Lemma Guide_CreateTodo_defaults_status_witness :
  exists t w',
    Guide.Service_CreateTodo "user_1" Fixture.guide_buy_milk Sample.fresh_world
    = (Done (inr t), w') /\
    Status_ t = StatusActive /\ SortOrder t = 3 /\
    todos (db w') = [t].
Proof.
  eexists _, _. split; [vm_compute; reflexivity|].
  destruct (Guide_CreateTodo_defaults_status "user_1" Fixture.guide_buy_milk
              Sample.fresh_world _ _ eq_refl) as (_ & Hs & Ho & _ & _ & _ & Ht).
  split; [exact Hs|]. split; [exact Ho|exact Ht].
Defined.

(** X20. An error of the guide's service create is one of its three 400
    rejections ("Category not found", "Parent todo not found", "Cannot
    create subtask of a subtask"), which hide whatever the lookup came back
    with and come before any insert; or the insert was the last statement
    sent and the error is the answer the store had in stock for it, after
    the lookups of the command, handed up as it is. In every case the
    table, the log, the object store and the queue are as they were. *)
Theorem Guide_CreateTodo_errors
    (userID : string) (payload : Guide.CreateTodoPayload) (w w' : World) (err : error) :
  Guide.Service_CreateTodo userID payload w = (Done (inl err), w') ->
  (err ∈ guide_rejections /\
   (length (db_log (db w')) <= length (db_log (db w)) + references payload)%nat
   \/
   (answer_at (references payload) w = QueryFault err \/
    answer_at (references payload) w = RowsFault err) /\
   last (db_log (db w'))
   = Some (SInsert Guide.CreateTodo_stmt
             (Guide.CreateTodo_args userID (effective payload)))) /\
  todos (db w') = todos (db w) /\
  logs w' = logs w /\ s3 w' = s3 w /\ queue w' = queue w.
Proof.
  intros Hrun.
  destruct (Guide_Service_CreateTodo_returns userID payload w)
    as (r & w0 & Hrun' & Hl & Hs & Hq & Hr).
  rewrite Hrun in Hrun'. injection Hrun' as <- <-.
  destruct Hr as [Ht Herr]. repeat split; assumption.
Qed.

(** A create under a parent that is not there, on a store that is down:
    the outage comes out as "Parent todo not found". *)
Lemma Guide_CreateTodo_errors_witness :
  exists w',
    Guide.Service_CreateTodo "user_1" Fixture.guide_under_ghost Fixture.out_world
    = (Done (inl (EHTTP (Errs.NewBadRequestError "Parent todo not found"
                           false None [] None))), w') /\
    todos (db w') = todos (db Fixture.out_world).
Proof.
  eexists. split; [reflexivity|].
  exact (proj1 (proj2 (Guide_CreateTodo_errors "user_1" Fixture.guide_under_ghost
                         Fixture.out_world _ _ eq_refl))).
Defined.

(** The guide's scenario command on a store that is down: the outage comes
    back as the store gave it. *)
Example Guide_CreateTodo_outage :
  fst (Guide.Service_CreateTodo "user_1" Fixture.guide_buy_milk Fixture.out_world)
  = Done (inl Fixture.outage) /\
  references Fixture.guide_buy_milk = 0%nat /\
  answer_at 0 Fixture.out_world = QueryFault Fixture.outage.
Proof. repeat split. Qed.

(* ===================================================================== *)
(** * The tracer chain *)
(* ===================================================================== *)


(* ===================================================================== *)
(** * The depth of the hierarchy *)
(* ===================================================================== *)

(** What the lookup of a task returns is a record of the table, under the
    identifier and the owner asked for. *)
Lemma CheckTodoExists_found userID todoID w p w1 :
  Repository.CheckTodoExists userID todoID w = (Done (inr p), w1) ->
  p ∈ todos (db w) /\ ID p = todoID /\ UserID p = userID.
Proof.
  unfold Repository.CheckTodoExists, bind, db_begin. simpl.
  destruct (hd NoFault (db_script (db w))); try discriminate.
  unfold db_get, fail, ok, ret. simpl.
  destruct (filter _ _) as [|x rest] eqn:Hf; [discriminate|].
  intros [= <- _].
  assert (Hx : x ∈ filter (fun t => ID t = todoID /\ UserID t = userID) (todos (db w))).
  { rewrite Hf. left. }
  apply list_elem_of_filter in Hx as [[Hid Hown] Hin]. repeat split; assumption.
Qed.

(** With unique identifiers, two records of a table under one identifier
    are one record. *)
Lemma unique_by_id (l : list Todo) (p q : Todo) :
  NoDup (map ID l) -> p ∈ l -> q ∈ l -> ID p = ID q -> p = q.
Proof.
  induction l as [|x l IH]; intros Hnd Hp Hq Hid; [inversion Hp|].
  simpl in Hnd. apply NoDup_cons in Hnd as [Hx Hnd].
  apply elem_of_cons in Hp as [->|Hp]; apply elem_of_cons in Hq as [->|Hq];
    try reflexivity.
  - exfalso. apply Hx. apply list_elem_of_fmap. exists q. split; [congruence|exact Hq].
  - exfalso. apply Hx. apply list_elem_of_fmap. exists p. split; [congruence|exact Hp].
  - apply IH; assumption.
Qed.

(** A record the service's create returns: its identifier is the one the
    store generated, its parent the one of the command, and that parent is
    a record of the principal in the table that has no parent itself. *)
Lemma Service_CreateTodo_created userID payload w t w' :
  Service.CreateTodo userID payload w = (Done (inr t), w') ->
  ID t = next_id w /\
  ParentTodoID t = pParentTodoID payload /\
  (forall parentID,
     pParentTodoID payload = Some parentID ->
     exists p, p ∈ todos (db w) /\ ID p = parentID /\ UserID p = userID /\
               ParentTodoID p = None).
Proof.
  assert (Hrepo : forall w0,
    next_id w0 = next_id w ->
    bind (Repository.CreateTodo userID payload)
      (fun r => match r with
                | inl err =>
                    log_event "error" [("error"%string, LErr err)]
                      "failed to create todo" ;;; fail err
                | inr todoItem =>
                    log_event "info"
                      [("event"%string, LStr "todo_created");
                       ("todo_id"%string, LStr (UUID_String (ID todoItem)));
                       ("title"%string, LStr (Title todoItem));
                       ("category_id"%string, LStr (Service.category_id_field todoItem));
                       ("priority"%string, LStr (Priority_ todoItem))]
                      "Todo created successfully" ;;; ok todoItem
                end) w0 = (Done (inr t), w') ->
    ID t = next_id w /\ ParentTodoID t = pParentTodoID payload).
  { intros w0 Hid. unfold bind at 1. rewrite CreateTodo_run.
    destruct (next_fault w0); cbv zeta;
      unfold bind, log_event, fail, ok, ret; cbn; intros [= <- _].
    split; [exact Hid|reflexivity]. }
  assert (Hcat : forall w0,
    next_id w0 = next_id w ->
    bind (match pCategoryID payload with
          | Some categoryID =>
              r <~ Repository.GetCategoryByID userID categoryID ;;
              match r with
              | inl err =>
                  log_event "error" [("error"%string, LErr err)]
                    "category validation failed" ;;; fail err
              | inr _ => ok tt
              end
          | None => ok tt
          end)
      (fun category_checked =>
         match category_checked with
         | inl err => fail err
         | inr _ =>
             r <~ Repository.CreateTodo userID payload ;;
             match r with
             | inl err =>
                 log_event "error" [("error"%string, LErr err)]
                   "failed to create todo" ;;; fail err
             | inr todoItem =>
                 log_event "info"
                   [("event"%string, LStr "todo_created");
                    ("todo_id"%string, LStr (UUID_String (ID todoItem)));
                    ("title"%string, LStr (Title todoItem));
                    ("category_id"%string, LStr (Service.category_id_field todoItem));
                    ("priority"%string, LStr (Priority_ todoItem))]
                   "Todo created successfully" ;;; ok todoItem
             end
         end) w0 = (Done (inr t), w') ->
    ID t = next_id w /\ ParentTodoID t = pParentTodoID payload).
  { intros w0 Hid. destruct (pCategoryID payload) as [categoryID|].
    - unfold bind at 1. unfold bind at 1.
      destruct (GetCategoryByID_returns userID categoryID w0) as (rc & ->).
      destruct rc as [err|c].
      + unfold bind, log_event, fail, ret. cbn. discriminate.
      + unfold ok at 1, ret at 1. apply Hrepo. exact Hid.
    - unfold bind at 1. unfold ok at 1, ret at 1. apply Hrepo. exact Hid. }
  unfold Service.CreateTodo.
  destruct (pParentTodoID payload) as [parentID|] eqn:Hp.
  - unfold bind at 1. unfold bind at 1.
    destruct (CheckTodoExists_returns userID parentID w) as (rp & Hc).
    rewrite Hc. destruct rp as [err|parent].
    + unfold bind, log_event, fail, ret. cbn. discriminate.
    + destruct (CheckTodoExists_found _ _ _ _ _ Hc) as (Hin & Hid & Hown).
      destruct (CanHaveChildren parent) eqn:Hcan; cbn [negb].
      * unfold ok at 1, ret at 1. intros Hrun.
        apply Hcat in Hrun; [|reflexivity]. destruct Hrun as [Ht Hpt].
        split; [exact Ht|]. split; [exact Hpt|].
        intros parentID' [= <-]. exists parent. repeat split; try assumption.
        unfold CanHaveChildren in Hcan. destruct (ParentTodoID parent); [discriminate|reflexivity].
      * unfold bind, log_event, fail, ret. cbn. discriminate.
  - unfold bind at 1. unfold ok at 1, ret at 1. intros Hrun.
    apply Hcat in Hrun; [|reflexivity]. destruct Hrun as [Ht Hpt].
    split; [exact Ht|]. split; [exact Hpt|]. intros parentID [=].
Qed.

(** X22. The service's create keeps the hierarchy two levels deep. Where
    identifiers are unique, no record is the child of a child, and the
    identifier the store generates next is neither in the table nor
    referred to as a parent, no record is the child of a child after the
    call, whatever the command asked for and whatever came of it. *)
Theorem CreateTodo_keeps_two_levels
    (userID : string) (payload : CreateTodoPayload) (w : World) :
  NoDup (map ID (todos (db w))) ->
  next_id w ∉ map ID (todos (db w)) ->
  Some (next_id w) ∉ map ParentTodoID (todos (db w)) ->
  two_levels (todos (db w)) ->
  two_levels (todos (db (snd (Service.CreateTodo userID payload w)))).
Proof.
  intros Hnd Hfresh Hunref Hflat.
  destruct (Service_CreateTodo_returns userID payload w)
    as (r & w' & event & Hrun & _ & _ & _ & Hr).
  rewrite Hrun. cbn [snd].
  destruct r as [err|t]; [destruct Hr as [_ ->]; exact Hflat|].
  destruct Hr as (_ & -> & _).
  destruct (Service_CreateTodo_created _ _ _ _ _ Hrun) as (Hid & Hpt & Hparent).
  intros child parent Hc Hp Hlink.
  apply elem_of_app in Hc as [Hc|Hc]; apply elem_of_app in Hp as [Hp|Hp];
    try (apply list_elem_of_singleton in Hc; subst child);
    try (apply list_elem_of_singleton in Hp; subst parent).
  - exact (Hflat child parent Hc Hp Hlink).
  - exfalso. apply Hunref. apply list_elem_of_fmap.
    exists child. split; [congruence|exact Hc].
  - rewrite Hpt in Hlink. destruct (Hparent _ Hlink) as (p & Hin & Hpid & _ & Hroot).
    rewrite (unique_by_id _ parent p Hnd Hp Hin); [exact Hroot|congruence].
  - exfalso. rewrite Hpt in Hlink.
    destruct (Hparent _ Hlink) as (p & Hin & Hpid & _).
    apply Hfresh. apply list_elem_of_fmap. exists p. split; [congruence|exact Hin].
Qed.

(** The sample table is two levels deep. *)
Lemma family_two_levels : two_levels (todos (db Sample.family_world)).
Proof.
  intros child parent Hc Hp Hlink.
  apply list_elem_of_In in Hc, Hp. simpl in Hc, Hp.
  destruct Hp as [<-|[<-|[<-|[]]]]; try reflexivity.
  destruct Hc as [<-|[<-|[<-|[]]]]; discriminate.
Qed.

(** A create under the first task of the sample. *)
Lemma CreateTodo_keeps_two_levels_witness :
  two_levels (todos (db (snd (Service.CreateTodo "user_1" Sample.under_root_task
                                Sample.family_world)))) /\
  length (todos (db (snd (Service.CreateTodo "user_1" Sample.under_root_task
                            Sample.family_world)))) = 4%nat.
Proof.
  split; [|reflexivity].
  apply (CreateTodo_keeps_two_levels "user_1" Sample.under_root_task
           Sample.family_world).
  - unique_ids.
  - apply (bool_decide_unpack _). vm_compute. exact I.
  - apply (bool_decide_unpack _). vm_compute. exact I.
  - exact family_two_levels.
Defined.
